(** * The LangGraph chat client ([streamlit_app.py]) as a state-passing script

    The Streamlit script is re-executed from top to bottom on every user
    interaction.  Each block of the script is embedded as a computation of
    the [script] monad below: it threads the session state
    ([st.session_state]), the list of HTTP requests issued so far, the
    notices written to the page and the number of clock readings, and it can
    end a run early ([st.stop()], [st.rerun()], an uncaught exception).

    What the program cannot decide by itself is collected in [env]: the
    configured base URL, the answers of the network, the clock, and Python's
    [repr] of non-string values.  Calls that only lay out the page (page
    configuration, titles, the sidebar's text, the spinner) are left out;
    notices and chat bubbles are recorded.  [requests] is taken at a version
    (2.27 or later) whose [response.json()] raises a [RequestException] on a
    body that is not JSON; what it raises on a body that is JSON and that
    the interpreter refuses all the same (an integer literal beyond the
    digit limit, a nesting beyond the recursion limit) is no
    [RequestException] and passes the [except] clauses of the client. *)

From Stdlib Require Import ZArith QArith String Ascii Lia.
From stdpp Require Import base option list strings gmap pretty.

Set Warnings "-register-all".
#[local] Open Scope Z_scope.
#[local] Open Scope string_scope.
#[local] Open Scope list_scope.

(** ** Python values *)

(** The values [response.json()] can return, which are also the values the
    script stores in a message: [None], booleans, integers, floats (kept as
    the rational they denote), strings, lists and string-keyed dicts. *)
Inductive pyval : Type :=
| PNone
| PBool (b : bool)
| PInt (z : Z)
| PFloat (q : Q)
| PStr (s : string)
| PList (l : list pyval)
| PDict (d : gmap string pyval).

Inductive exn : Type :=
| TypeError
| AttributeError
| KeyError
| OverflowError
| ValueError
| RecursionError
| OSError.

(** [bool(v)]. *)
Definition truthy (v : pyval) : bool :=
  match v with
  | PNone => false
  | PBool b => b
  | PInt z => negb (Z.eqb z 0)
  | PFloat q => negb (Z.eqb (Qnum q) 0)
  | PStr s => negb (String.eqb s "")
  | PList l => match l with [] => false | _ :: _ => true end
  | PDict d => negb (bool_decide (d = ∅))
  end.

(** [needle in hay] on two strings. *)
Fixpoint is_substring (needle hay : string) : bool :=
  String.prefix needle hay ||
  match hay with
  | EmptyString => false
  | String _ rest => is_substring needle rest
  end.

(** [key in v] for a string [key]. *)
Definition py_in (key : string) (v : pyval) : exn + bool :=
  match v with
  | PDict d => inr (match d !! key with Some _ => true | None => false end)
  | PList l =>
      inr (existsb (fun x => match x with PStr s => String.eqb key s | _ => false end) l)
  | PStr s => inr (is_substring key s)
  | _ => inl TypeError
  end.

(** [v[key]] for a string [key]. *)
Definition py_getitem (v : pyval) (key : string) : exn + pyval :=
  match v with
  | PDict d => match d !! key with Some x => inr x | None => inl KeyError end
  | _ => inl TypeError
  end.

(** [v.get(key, dflt)]: only dicts have the method. *)
Definition py_get (v : pyval) (key : string) (dflt : pyval) : exn + pyval :=
  match v with
  | PDict d => inr (default dflt (d !! key))
  | _ => inl AttributeError
  end.

Fixpoint chars (s : string) : list pyval :=
  match s with
  | EmptyString => []
  | String c rest => PStr (String c EmptyString) :: chars rest
  end.

(** The items a [for] loop over [v] visits. *)
Definition py_iter (v : pyval) : exn + list pyval :=
  match v with
  | PList l => inr l
  | PDict d => inr ((fun kv => PStr kv.1) <$> map_to_list d)
  | PStr s => inr (chars s)
  | _ => inl TypeError
  end.

(** ** Time *)

(** One reading of [datetime.now()]: the local calendar fields that
    [strftime] prints, and the reading as [int(now.timestamp() * 1000)]. *)
Record instant : Type := Instant {
  year : Z; month : Z; day : Z;
  hour : Z; minute : Z; second : Z;
  epoch_ms : Z
}.

Definition digit_char (d : Z) : ascii := ascii_of_N (Z.to_N (48 + d)).

Definition two_digits (n : Z) : string :=
  String (digit_char (n / 10 mod 10)) (String (digit_char (n mod 10)) EmptyString).

Definition three_digits (n : Z) : string :=
  String (digit_char (n / 100 mod 10)) (two_digits n).

Definition four_digits (n : Z) : string :=
  String (digit_char (n / 1000 mod 10)) (three_digits n).

(** [%Y] as the C library prints it on Linux: the year in decimal, not
    padded (year 987 is printed [987]). *)
Definition year_digits (y : Z) : string :=
  if Z.ltb y 10 then String (digit_char (y mod 10)) EmptyString
  else if Z.ltb y 100 then two_digits y
  else if Z.ltb y 1000 then three_digits y
  else four_digits y.

(** [t.strftime('%Y%m%d_%H%M%S')]. *)
Definition strftime (t : instant) : string :=
  year_digits (year t) +:+ two_digits (month t) +:+ two_digits (day t) +:+ "_" +:+
  two_digits (hour t) +:+ two_digits (minute t) +:+ two_digits (second t).

(** The fields of a [datetime] are in these ranges. *)
Definition valid_instant (t : instant) : Prop :=
  1 <= year t <= 9999 /\ 1 <= month t <= 12 /\ 1 <= day t <= 31 /\
  0 <= hour t < 24 /\ 0 <= minute t < 60 /\ 0 <= second t < 60.

(** ** HTTP *)

Inductive request : Type :=
| GET (url : string) (timeout : Z)
| POST (url : string) (json : pyval) (timeout : Z).

(** What a call of [requests.get] / [requests.post] comes back with: a
    response (status code, raw body, and what [response.json()] does: the
    parsed value, or, when the body does not parse, the [JSONDecodeError] of
    [requests], which is a [RequestException]), a response on which
    [response.json()] raises an exception [x] that is not a
    [RequestException] ([ValueError] on an integer literal longer than the
    interpreter's digit limit, [RecursionError] on too deep a nesting), a
    timeout, or another [RequestException]; the strings are [str(e)]. *)
Inductive http_result : Type :=
| Response (status_code : Z) (text : string) (json : string + pyval)
| ResponseRefused (status_code : Z) (text : string) (x : exn)
| Timeout (msg : string)
| RequestException (msg : string).

(** ** Session state and page *)

Record message : Type := Message {
  role : pyval;
  content : pyval;
  timestamp : pyval
}.

Record session_state : Type := SessionState {
  messages : list message;
  thread_id : string;
  api_available : bool
}.

(** The calls that write a notice or a chat bubble to the page. *)
Inductive ui : Type :=
| st_success (body : string)
| st_warning (body : string)
| st_error (body : string)
| st_info (body : string)
| st_chat_markdown (name : string) (body : pyval)
| st_caption (body : string).

Record env : Type := Env {
  API_BASE_URL : string;
  (** answer of the network to a request, given the requests made before *)
  network : list request -> request -> http_result;
  (** the n-th reading of the clock *)
  now : nat -> instant;
  (** [str(v)] of a value that is not a string *)
  repr : pyval -> string;
  (** [datetime.fromtimestamp(ts / 1000).strftime('%Y-%m-%d %H:%M:%S')] of a
      number, or what is raised on the way when the number is out of range
      ([OverflowError], [ValueError] or [OSError], depending on the number
      and the platform) *)
  fromtimestamp : pyval -> exn + string
}.

(** [str(v)], as an f-string interpolates it. *)
Definition py_str (e : env) (v : pyval) : string :=
  match v with
  | PStr s => s
  | _ => repr e v
  end.

Record run : Type := Run {
  session : session_state;
  sent : list request;
  page : list ui;
  ticks : nat
}.

(** ** The script monad *)

Inductive halt : Type :=
| Stop
| Rerun
| Raised (x : exn).

Inductive result (A : Type) : Type :=
| Done (a : A)
| Halted (h : halt).
Arguments Done {A} a.
Arguments Halted {A} h.

Definition script (A : Type) : Type := run -> result A * run.

Definition ret {A} (a : A) : script A := fun r => (Done a, r).

Definition bind {A B} (c : script A) (k : A -> script B) : script B :=
  fun r =>
    match c r with
    | (Done a, r') => k a r'
    | (Halted h, r') => (Halted h, r')
    end.

Declare Scope script_scope.
Delimit Scope script_scope with script.
Bind Scope script_scope with script.
Notation "'let*' x ':=' c 'in' k" := (bind c (fun x => k))
  (at level 10, x name, c at level 100, k at level 200) : script_scope.
Notation "c ';;' k" := (bind c (fun _ => k))
  (at level 100, k at level 200, right associativity) : script_scope.
#[local] Open Scope script_scope.

Definition st_stop {A} : script A := fun r => (Halted Stop, r).
Definition st_rerun {A} : script A := fun r => (Halted Rerun, r).
Definition raise {A} (x : exn) : script A := fun r => (Halted (Raised x), r).

Definition lift {A} (v : exn + A) : script A :=
  match v with
  | inr a => ret a
  | inl x => raise x
  end.

Definition get_session : script session_state := fun r => (Done (session r), r).

Definition put_session (s : session_state) : script unit :=
  fun r => (Done tt, {| session := s; sent := sent r; page := page r; ticks := ticks r |}).

Definition show (u : ui) : script unit :=
  fun r => (Done tt,
            {| session := session r; sent := sent r; page := page r ++ [u]; ticks := ticks r |}).

(** [datetime.now()] *)
Definition datetime_now (e : env) : script instant :=
  fun r => (Done (now e (ticks r)),
            {| session := session r; sent := sent r; page := page r; ticks := S (ticks r) |}).

Definition http (e : env) (q : request) : script http_result :=
  fun r => (Done (network e (sent r) q),
            {| session := session r; sent := sent r ++ [q]; page := page r; ticks := ticks r |}).

Definition set_messages (l : list message) : script unit :=
  let* s := get_session in
  put_session {| messages := l; thread_id := thread_id s; api_available := api_available s |}.

Definition set_thread_id (t : string) : script unit :=
  let* s := get_session in
  put_session {| messages := messages s; thread_id := t; api_available := api_available s |}.

Definition set_api_available (b : bool) : script unit :=
  let* s := get_session in
  put_session {| messages := messages s; thread_id := thread_id s; api_available := b |}.

(** [st.session_state.messages.append(m)] *)
Definition append_message (m : message) : script unit :=
  let* s := get_session in
  set_messages (messages s ++ [m]).

(** ** API client *)

(** The three requests the client makes. *)
Definition health_request (e : env) : request :=
  GET (API_BASE_URL e +:+ "/health") 5.

Definition history_request (e : env) (thread : string) : request :=
  GET (API_BASE_URL e +:+ "/api/history/" +:+ thread) 10.

Definition chat_request (e : env) (thread message : string) : request :=
  POST (API_BASE_URL e +:+ "/api/chat")
       (PDict {[ "message" := PStr message; "threadId" := PStr thread ]})
       60.

(** [check_api_health]: the parsed body on a 200, [None] otherwise; only a
    [RequestException] is caught. *)
Definition check_api_health (e : env) : script pyval :=
  let* response := http e (health_request e) in
  match response with
  | Response status_code _ json =>
      if Z.eqb status_code 200
      then match json with
           | inr v => ret v
           | inl _ => ret PNone
           end
      else ret PNone
  | ResponseRefused status_code _ x =>
      if Z.eqb status_code 200 then raise x else ret PNone
  | Timeout _ | RequestException _ => ret PNone
  end.

(** [load_history]: the ['history'] entry of the body on a 200, the empty
    list otherwise; a [RequestException] is reported on the page. *)
Definition load_history (e : env) : script pyval :=
  let* s := get_session in
  let* response := http e (history_request e (thread_id s)) in
  match response with
  | Response status_code _ json =>
      if Z.eqb status_code 200
      then match json with
           | inr data => lift (py_get data "history" (PList []))
           | inl msg =>
               show (st_error ("Error loading history: " +:+ msg));;
               ret (PList [])
           end
      else ret (PList [])
  | ResponseRefused status_code _ x =>
      if Z.eqb status_code 200 then raise x else ret (PList [])
  | Timeout msg | RequestException msg =>
      show (st_error ("Error loading history: " +:+ msg));;
      ret (PList [])
  end.

(** [send_message]: the parsed body on a 200, an error result otherwise. *)
Definition send_message (e : env) (message : string) : script pyval :=
  let* s := get_session in
  let* response := http e (chat_request e (thread_id s) message) in
  match response with
  | Response status_code text json =>
      if Z.eqb status_code 200
      then match json with
           | inr v => ret v
           | inl msg =>
               ret (PDict {[ "error" := PStr msg;
                             "response" := PStr ("Error connecting to API: " +:+ msg) ]})
           end
      else ret (PDict {[ "error" := PStr ("API error: " +:+ pretty status_code);
                         "response" := PStr text ]})
  | ResponseRefused status_code text x =>
      if Z.eqb status_code 200 then raise x
      else ret (PDict {[ "error" := PStr ("API error: " +:+ pretty status_code);
                         "response" := PStr text ]})
  | Timeout _ =>
      ret (PDict {[ "error" := PStr "Request timeout";
                    "response" := PStr "The request took too long. Please try again." ]})
  | RequestException msg =>
      ret (PDict {[ "error" := PStr msg;
                    "response" := PStr ("Error connecting to API: " +:+ msg) ]})
  end.

(** ** The blocks of the script, in source order *)

(** What one run of the script is triggered by: at most one widget fires. *)
Inductive event : Type :=
| NoEvent
| CheckStatusClicked
| Submitted (prompt : string)
| ClearClicked
| LoadHistoryClicked.

(** Lines 15-22: the session state of a browser session's first run. *)
Definition new_session (e : env) : script unit :=
  let* t := datetime_now e in
  put_session {| messages := []; thread_id := "thread_" +:+ strftime t;
                 api_available := false |}.

(** Lines 92-103: the "Check API Status" button. *)
Definition check_status_clicked (e : env) : script unit :=
  let* health := check_api_health e in
  if truthy health
  then
    show (st_success "✅ API is available");;
    set_api_available true;;
    let* initialized := lift (py_get health "initialized" PNone) in
    if truthy initialized
    then show (st_success "✅ Graph service initialized")
    else show (st_warning "⚠️ Graph service not initialized")
  else
    show (st_error "❌ API is not available");;
    set_api_available false.

(** The body of the three loops that copy a backend history into the log:
    [messages.append({"role": msg.get('role', 'assistant'), "content":
    msg.get('content', ''), "timestamp": msg.get('timestamp')})]. *)
Definition append_entry (msg : pyval) : script unit :=
  let* role := lift (py_get msg "role" (PStr "assistant")) in
  let* content := lift (py_get msg "content" (PStr "")) in
  let* timestamp := lift (py_get msg "timestamp" PNone) in
  append_message {| role := role; content := content; timestamp := timestamp |}.

Fixpoint for_each {A} (items : list A) (body : A -> script unit) : script unit :=
  match items with
  | [] => ret tt
  | x :: rest => body x;; for_each rest body
  end.

(** Lines 106-119: with an empty log, every run checks the API's health and,
    when it answers, loads the thread's history. *)
Definition load_on_empty_log (e : env) : script unit :=
  let* s := get_session in
  match messages s with
  | _ :: _ => ret tt
  | [] =>
      let* health := check_api_health e in
      let available := match health with PNone => false | _ => true end in
      set_api_available available;;
      if available
      then
        let* history := load_history e in
        if truthy history
        then let* items := lift (py_iter history) in for_each items append_entry
        else ret tt
      else ret tt
  end.

(** Lines 126-130: the connection banner. *)
Definition show_api_status (e : env) : script unit :=
  let* s := get_session in
  if api_available s
  then show (st_success "✅ Connected to API")
  else
    show (st_error "❌ API not available. Please check the API server is running.");;
    show (st_info ("Make sure the API server is running at: " +:+ API_BASE_URL e)).

(** Lines 136-147: one message of the log on the page. *)
Definition show_message (e : env) (m : message) : script unit :=
  match role m with
  | PStr "user" => show (st_chat_markdown "user" (content m))
  | _ =>
      show (st_chat_markdown "assistant" (content m));;
      if truthy (timestamp m)
      then
        match timestamp m with
        | PInt _ | PFloat _ | PBool _ =>
            match fromtimestamp e (timestamp m) with
            | inr text => show (st_caption ("Timestamp: " +:+ text))
            | inl x => raise x
            end
        | _ => raise TypeError
        end
      else ret tt
  end.

Definition show_messages (e : env) : script unit :=
  let* s := get_session in
  for_each (messages s) (show_message e).

(** [int(datetime.now().timestamp() * 1000)] *)
Definition now_ms (e : env) : script pyval :=
  let* t := datetime_now e in ret (PInt (epoch_ms t)).

(** Lines 160-197: what the chat input does with the result of
    [send_message]. *)
Definition apply_result (e : env) (prompt : string) (result : pyval) : script unit :=
  let* has_error := lift (py_in "error" result) in
  if has_error
  then
    let* err := lift (py_getitem result "error") in
    show (st_error ("Error: " +:+ py_str e err));;
    let* response_text := lift (py_get result "response" (PStr "No response received")) in
    let* t1 := now_ms e in
    append_message {| role := PStr "user"; content := PStr prompt; timestamp := t1 |};;
    let* t2 := now_ms e in
    append_message {| role := PStr "assistant";
                      content := PStr ("Error: " +:+ py_str e response_text);
                      timestamp := t2 |}
  else
    let* has_history := lift (py_in "conversationHistory" result) in
    let* history :=
      (if has_history then lift (py_getitem result "conversationHistory")
       else ret (PBool false)) in
    if truthy history
    then
      set_messages [];;
      let* items := lift (py_iter history) in
      for_each items append_entry
    else
      let* response_text := lift (py_get result "response" (PStr "No response received")) in
      let* t1 := now_ms e in
      append_message {| role := PStr "user"; content := PStr prompt; timestamp := t1 |};;
      let* t2 := now_ms e in
      append_message {| role := PStr "assistant"; content := response_text;
                        timestamp := t2 |}.

(** Lines 150-200: the chat input. *)
Definition chat_input_submitted (e : env) (prompt : string) : script unit :=
  if String.eqb prompt "" then ret tt else
  let* s := get_session in
  (if api_available s then ret tt
   else
     show (st_error "API is not available. Please check the API server is running.");;
     st_stop);;
  let* result := send_message e prompt in
  apply_result e prompt result;;
  st_rerun.

(** Lines 204-207: the "Clear Chat" button. *)
Definition clear_chat_clicked (e : env) : script unit :=
  set_messages [];;
  let* t := datetime_now e in
  set_thread_id ("thread_" +:+ strftime t);;
  st_rerun.

(** Lines 209-225: the "Load History" button. *)
Definition load_history_clicked (e : env) : script unit :=
  let* s := get_session in
  if api_available s
  then
    let* history := load_history e in
    if truthy history
    then
      set_messages [];;
      let* items := lift (py_iter history) in
      for_each items append_entry;;
      let* n := lift (match history with
                      | PList l => inr (length l)
                      | PDict d => inr (size d)
                      | PStr s => inr (String.length s)
                      | _ => inl TypeError
                      end) in
      show (st_success ("Loaded " +:+ pretty n +:+ " messages"));;
      st_rerun
    else show (st_info "No history found")
  else show (st_error "API is not available").

(** One run of the script on an initialised session. *)
Definition script_run (e : env) (ev : event) : script unit :=
  (match ev with CheckStatusClicked => check_status_clicked e | _ => ret tt end);;
  load_on_empty_log e;;
  show_api_status e;;
  show_messages e;;
  (match ev with Submitted prompt => chat_input_submitted e prompt | _ => ret tt end);;
  (match ev with ClearClicked => clear_chat_clicked e | _ => ret tt end);;
  (match ev with LoadHistoryClicked => load_history_clicked e | _ => ret tt end).

(** What a user interaction does to the session: the run it triggers and,
    when that run asks for it with [st.rerun()], the run that follows (in
    which no widget fires). *)
Definition interact (e : env) (ev : event) : script unit :=
  fun r =>
    match script_run e ev r with
    | (Halted Rerun, r') => script_run e NoEvent r'
    | other => other
    end.

(** * Vocabulary of the statements *)

(** A backend history entry as the log holds it after a replacement: its
    role, content and timestamp, a missing role read as ["assistant"], a
    missing content as the empty string, a missing timestamp as [None]. *)
Definition entry_of (d : gmap string pyval) : message :=
  {| role := default (PStr "assistant") (d !! "role");
     content := default (PStr "") (d !! "content");
     timestamp := default PNone (d !! "timestamp") |}.

(** The dict a message of the log is. *)
Definition dict_of (m : message) : gmap string pyval :=
  {[ "role" := role m; "content" := content m; "timestamp" := timestamp m ]}.

(** [r] with its log replaced by [l]. *)
Definition with_log (l : list message) (r : run) : run :=
  {| session := {| messages := l; thread_id := thread_id (session r);
                   api_available := api_available (session r) |};
     sent := sent r; page := page r; ticks := ticks r |}.

(** [r] after the request [q], after the notice [u], after [n] more clock
    readings. *)
Definition sending (q : request) (r : run) : run :=
  {| session := session r; sent := sent r ++ [q]; page := page r; ticks := ticks r |}.

Definition showing (u : ui) (r : run) : run :=
  {| session := session r; sent := sent r; page := page r ++ [u]; ticks := ticks r |}.

Definition ticking (n : nat) (r : run) : run :=
  {| session := session r; sent := sent r; page := page r; ticks := n + ticks r |}.

(** The two messages the chat input appends, stamped by the client. *)
Definition user_message (prompt : string) (ms : Z) : message :=
  {| role := PStr "user"; content := PStr prompt; timestamp := PInt ms |}.

Definition assistant_message (body : pyval) (ms : Z) : message :=
  {| role := PStr "assistant"; content := body; timestamp := PInt ms |}.

(** The log after the two appends of an exchange that starts in [r]. *)
Definition exchange (e : env) (prompt : string) (reply : pyval) (r : run) : list message :=
  messages (session r) ++
    [user_message prompt (epoch_ms (now e (ticks r)));
     assistant_message reply (epoch_ms (now e (S (ticks r))))].

(** The answer of the backend to the chat request that a submission of
    [prompt] makes from [r]. *)
Definition chat_answer (e : env) (r : run) (prompt : string) : http_result :=
  network e (sent r) (chat_request e (thread_id (session r)) prompt).

(** The answer of the backend to the history request made from [r]. *)
Definition history_answer (e : env) (r : run) : http_result :=
  network e (sent r) (history_request e (thread_id (session r))).

(** The answer is a 200 whose body is the JSON object [d]. *)
Definition ok_body (a : http_result) (d : gmap string pyval) : Prop :=
  exists text, a = Response 200 text (inr (PDict d)).

(** How a call that returns [v] or raises [x] ends. *)
Definition outcome {A} (v : exn + A) : result A :=
  match v with
  | inr a => Done a
  | inl x => Halted (Raised x)
  end.

(** What [send_message] does on the backend's answer: the result it
    returns, or the exception that [response.json()] lets through. *)
Definition chat_result (a : http_result) : exn + pyval :=
  match a with
  | Response status_code text json =>
      if Z.eqb status_code 200
      then match json with
           | inr v => inr v
           | inl msg =>
               inr (PDict {[ "error" := PStr msg;
                             "response" := PStr ("Error connecting to API: " +:+ msg) ]})
           end
      else inr (PDict {[ "error" := PStr ("API error: " +:+ pretty status_code);
                         "response" := PStr text ]})
  | ResponseRefused status_code text x =>
      if Z.eqb status_code 200 then inl x
      else inr (PDict {[ "error" := PStr ("API error: " +:+ pretty status_code);
                         "response" := PStr text ]})
  | Timeout _ =>
      inr (PDict {[ "error" := PStr "Request timeout";
                    "response" := PStr "The request took too long. Please try again." ]})
  | RequestException msg =>
      inr (PDict {[ "error" := PStr msg;
                    "response" := PStr ("Error connecting to API: " +:+ msg) ]})
  end.

(** The text an error result of [send_message] displays: fixed on a timeout,
    the failure's description on another network failure, the raw body on a
    response that is not a 200. *)
Definition error_text (a : http_result) : option string :=
  match a with
  | Timeout _ => Some "The request took too long. Please try again."
  | RequestException msg => Some ("Error connecting to API: " +:+ msg)
  | Response status_code text _ | ResponseRefused status_code text _ =>
      if Z.eqb status_code 200 then None else Some text
  end.



(** The three stretches of a run: the button above the log, what comes
    before the other widgets, and their handlers. *)
Definition first_block (e : env) (ev : event) : script unit :=
  match ev with CheckStatusClicked => check_status_clicked e | _ => ret tt end.

Definition before_handlers (e : env) : script unit :=
  load_on_empty_log e;; show_api_status e;; show_messages e.

Definition handlers (e : env) (ev : event) : script unit :=
  (match ev with Submitted prompt => chat_input_submitted e prompt | _ => ret tt end);;
  (match ev with ClearClicked => clear_chat_clicked e | _ => ret tt end);;
  (match ev with LoadHistoryClicked => load_history_clicked e | _ => ret tt end).

(** A run ended by an exception. *)
Definition raised {A} (res : result A) : Prop := exists y, res = Halted (Raised y).

(** The state after the prompts were submitted one after the other, each
    submission being a whole interaction: its run and, when that run asks
    for it, the rerun. *)
Definition submit_all (e : env) (prompts : list string) (r : run) : run :=
  fold_left (fun r prompt => (interact e (Submitted prompt) r).2) prompts r.

(** The local date and time of day that an instant reads, to the second:
    the fields [strftime] prints.  Two instants an hour apart read the same
    when the clocks are set back between them. *)
Definition calendar (t : instant) : Z * Z * Z * Z * Z * Z :=
  (year t, month t, day t, hour t, minute t, second t).

(** * Sample backends and sessions *)

(** The double quote of a JSON text. *)
Definition quoted (s : string) : string :=
  String "034"%char s +:+ String "034"%char EmptyString.

(** Monday 1 January 2024, 12:00:00, and the [n] milliseconds after it. *)
Definition noon_plus (n : nat) : instant :=
  {| year := 2024; month := 1; day := 1; hour := 12; minute := 0; second := 0;
     epoch_ms := 1704110400000 + Z.of_nat n |}.


(** [str] of the scalars; the samples interpolate nothing else. *)
Definition repr_of_scalar (v : pyval) : string :=
  match v with
  | PNone => "None"
  | PBool true => "True"
  | PBool false => "False"
  | PInt z => pretty z
  | _ => "..."
  end.

Definition health_ok : http_result :=
  Response 200 ("{" +:+ quoted "initialized" +:+ ": true}")
           (inr (PDict {[ "initialized" := PBool true ]})).

Definition no_history : http_result :=
  Response 200 ("{" +:+ quoted "history" +:+ ": []}")
           (inr (PDict {[ "history" := PList [] ]})).

(** The body [{"response": "hi there"}]. *)
Definition reply_hi_there : http_result :=
  Response 200 ("{" +:+ quoted "response" +:+ ": " +:+ quoted "hi there" +:+ "}")
           (inr (PDict {[ "response" := PStr "hi there" ]})).

(** A backend at [http://localhost:3000] that is healthy and answers every
    history request with [history] and every chat request with [chat]. *)
Definition backend (history chat : http_result) : env :=
  {| API_BASE_URL := "http://localhost:3000";
     network := fun _ q =>
       match q with
       | GET url _ =>
           if String.eqb url "http://localhost:3000/health" then health_ok else history
       | POST _ _ _ => chat
       end;
     now := noon_plus;
     repr := repr_of_scalar;
     fromtimestamp := fun _ => inr "2024-01-01 12:00:00" |}.


(** The same backend on a machine whose clock is read once an hour in the
    night the clocks are set back from summer time (Sunday 27 October 2024,
    Central Europe): the first two readings, an hour apart, both show
    02:00:00. *)
Definition autumn_night (n : nat) : instant :=
  {| year := 2024; month := 10; day := 27;
     hour := match n with O => 2 | S n' => 2 + Z.of_nat n' end;
     minute := 0; second := 0;
     epoch_ms := 1729987200000 + 3600000 * Z.of_nat n |}.

Definition autumn_backend : env :=
  {| API_BASE_URL := "http://localhost:3000";
     network := network (backend no_history no_history);
     now := autumn_night;
     repr := repr_of_scalar;
     fromtimestamp := fun _ => inr "2024-10-27 02:00:00" |}.

(** A backend that is down when the session starts and up afterwards: the
    first request of the session finds no one listening. *)
Definition late_backend : env :=
  {| API_BASE_URL := "http://localhost:3000";
     network := fun past q =>
       match past with
       | [] => RequestException "Connection refused"
       | _ :: _ => network (backend no_history reply_hi_there) past q
       end;
     now := noon_plus;
     repr := repr_of_scalar;
     fromtimestamp := fun _ => inr "2024-01-01 12:00:00" |}.

(** The state a browser session starts from: nothing sent, nothing shown,
    the clock not read yet; lines 15-22 then fill in the session. *)
Definition before_first_run : run :=
  {| session := {| messages := []; thread_id := ""; api_available := false |};
     sent := []; page := []; ticks := 0 |}.

(** A session on thread [thread_20240101_120000] after one clock reading. *)
Definition session_with (log : list message) (available : bool) : run :=
  {| session := {| messages := log; thread_id := "thread_20240101_120000";
                   api_available := available |};
     sent := []; page := []; ticks := 1 |}.

Definition earlier_exchange : list message :=
  [user_message "ping" 1704110340000; assistant_message (PStr "pong") 1704110341500].

(** The body [{"error": "graph failed", "conversationHistory": [{"role":
    "user", "content": "hello"}]}]. *)
Definition error_and_history : gmap string pyval :=
  {[ "error" := PStr "graph failed";
     "conversationHistory" :=
       PList [PDict {[ "role" := PStr "user"; "content" := PStr "hello" ]}] ]}.

Definition reply_error_and_history : http_result :=
  Response 200
    ("{" +:+ quoted "error" +:+ ": " +:+ quoted "graph failed" +:+ ", " +:+
     quoted "conversationHistory" +:+ ": [{" +:+ quoted "role" +:+ ": " +:+ quoted "user" +:+
     ", " +:+ quoted "content" +:+ ": " +:+ quoted "hello" +:+ "}]}")
    (inr (PDict error_and_history)).

(** What [response.json()] raises on a body that is not JSON. *)
Definition not_json : string := "Expecting value: line 1 column 1 (char 0)".

Definition server_exploded : http_result := Response 500 "server exploded" (inl not_json).

Definition empty_500 : http_result := Response 500 "" (inl not_json).

(** The body [{"conversationHistory": [], "response": "hi there"}]. *)
Definition empty_history_and_response : gmap string pyval :=
  {[ "conversationHistory" := PList []; "response" := PStr "hi there" ]}.

Definition reply_empty_history_and_response : http_result :=
  Response 200
    ("{" +:+ quoted "conversationHistory" +:+ ": [], " +:+
     quoted "response" +:+ ": " +:+ quoted "hi there" +:+ "}")
    (inr (PDict empty_history_and_response)).

(** The body [{"conversationHistory": []}]. *)
Definition empty_history : gmap string pyval :=
  {[ "conversationHistory" := PList [] ]}.

Definition reply_empty_history : http_result :=
  Response 200 ("{" +:+ quoted "conversationHistory" +:+ ": []}")
           (inr (PDict empty_history)).

(** A conversation held by the backend, as (role, content) pairs, and the
    JSON objects and text of its first [n] entries. *)
Definition talk : list (string * string) :=
  [("user", "hello"); ("assistant", "hi there"); ("user", "again"); ("assistant", "hi again")].

Definition entry_dict (p : string * string) : gmap string pyval :=
  {[ "role" := PStr p.1; "content" := PStr p.2 ]}.

Definition entry_text (p : string * string) : string :=
  "{" +:+ quoted "role" +:+ ": " +:+ quoted p.1 +:+ ", " +:+
  quoted "content" +:+ ": " +:+ quoted p.2 +:+ "}".

Fixpoint join (sep : string) (l : list string) : string :=
  match l with
  | [] => ""
  | [s] => s
  | s :: rest => s +:+ sep +:+ join sep rest
  end.

Definition talk_so_far (n : nat) : list (gmap string pyval) := entry_dict <$> take n talk.

Definition reply_talk (n : nat) : http_result :=
  Response 200
    ("{" +:+ quoted "conversationHistory" +:+ ": [" +:+
     join ", " (entry_text <$> take n talk) +:+ "]}")
    (inr (PDict {[ "conversationHistory" := PList (PDict <$> talk_so_far n) ]})).

(** The body with the first exchange of [talk] as its conversation history
    and ["hi there"] as its response. *)
Definition talk_and_response : gmap string pyval :=
  {[ "conversationHistory" := PList (PDict <$> talk_so_far 2);
     "response" := PStr "hi there" ]}.

Definition reply_talk_and_response : http_result :=
  Response 200
    ("{" +:+ quoted "conversationHistory" +:+ ": [" +:+
     join ", " (entry_text <$> take 2 talk) +:+ "], " +:+
     quoted "response" +:+ ": " +:+ quoted "hi there" +:+ "}")
    (inr (PDict talk_and_response)).

(** A backend that answers the k-th request of a session, when it is a chat
    request, with the conversation up to that exchange. *)
Definition talking_backend : env :=
  {| API_BASE_URL := "http://localhost:3000";
     network := fun past q =>
       match q with
       | GET url _ =>
           if String.eqb url "http://localhost:3000/health" then health_ok else no_history
       | POST _ _ _ => reply_talk (2 * S (length past))
       end;
     now := noon_plus;
     repr := repr_of_scalar;
     fromtimestamp := fun _ => inr "2024-01-01 12:00:00" |}.

(** * Vocabulary of the further properties *)

(** What [check_api_health] does on an answer: the value it returns, or the
    exception that [response.json()] lets through. *)
Definition health_value (a : http_result) : exn + pyval :=
  match a with
  | Response status_code _ (inr v) => inr (if Z.eqb status_code 200 then v else PNone)
  | ResponseRefused status_code _ x => if Z.eqb status_code 200 then inl x else inr PNone
  | _ => inr PNone
  end.

(** The answer of the backend to the health check made from [r]. *)
Definition health_answer (e : env) (r : run) : http_result :=
  network e (sent r) (health_request e).

(** [v is not None] *)
Definition is_not_none (v : pyval) : bool :=
  match v with PNone => false | _ => true end.

(** The availability flag after the health check that the first-load block
    makes from [r]: whether the check returned something, or the flag as it
    was when the check raises before line 107 assigns. *)
Definition flag_after_check (e : env) (r : run) : bool :=
  match health_value (health_answer e r) with
  | inr v => is_not_none v
  | inl _ => api_available (session r)
  end.

(** [v] is not a JSON object. *)
Definition not_object (v : pyval) : Prop := forall d, v <> PDict d.

(** The chat bubble of a message: every role but ["user"] is shown as the
    assistant's. *)
Definition bubble (m : message) : ui :=
  match role m with
  | PStr "user" => st_chat_markdown "user" (content m)
  | _ => st_chat_markdown "assistant" (content m)
  end.

Definition is_bubble (u : ui) : bool :=
  match u with st_chat_markdown _ _ => true | _ => false end.

(** The chat bubbles of a page, in order. *)
Definition bubbles (p : list ui) : list ui := List.filter is_bubble p.

(** The requests a run triggered by [ev] may issue on thread [thread]. *)
Definition run_request (e : env) (thread : string) (ev : event) (q : request) : Prop :=
  q = health_request e \/
  q = history_request e thread \/
  exists prompt, ev = Submitted prompt /\ q = chat_request e thread prompt.

(** [r] with its availability flag set to [b]. *)
Definition with_flag (b : bool) (r : run) : run :=
  {| session := {| messages := messages (session r); thread_id := thread_id (session r);
                   api_available := b |};
     sent := sent r; page := page r; ticks := ticks r |}.

(** The second notice of the "Check API Status" button on a JSON object. *)
Definition initialized_notice (d : gmap string pyval) : ui :=
  if truthy (default PNone (d !! "initialized"))
  then st_success "✅ Graph service initialized"
  else st_warning "⚠️ Graph service not initialized".

(** The body [{}] and the body [{"initialized": false}]. *)
Definition health_empty_object : http_result := Response 200 "{}" (inr (PDict ∅)).

Definition health_not_initialized : http_result :=
  Response 200 ("{" +:+ quoted "initialized" +:+ ": false}")
           (inr (PDict {[ "initialized" := PBool false ]})).

(** A backend whose health check answers [health]; history and chat as in
    [backend]. *)
Definition backend_with_health (health history chat : http_result) : env :=
  {| API_BASE_URL := "http://localhost:3000";
     network := fun _ q =>
       match q with
       | GET url _ =>
           if String.eqb url "http://localhost:3000/health" then health else history
       | POST _ _ _ => chat
       end;
     now := noon_plus;
     repr := repr_of_scalar;
     fromtimestamp := fun _ => inr "2024-01-01 12:00:00" |}.

(** The history body with the first [n] entries of [talk]. *)
Definition history_of_talk (n : nat) : http_result :=
  Response 200
    ("{" +:+ quoted "history" +:+ ": [" +:+ join ", " (entry_text <$> take n talk) +:+ "]}")
    (inr (PDict {[ "history" := PList (PDict <$> talk_so_far n) ]})).

(** A 503 with an HTML body, and a 200 whose body is a JSON list. *)
Definition unavailable_503 : http_result :=
  Response 503 "<html>Service Unavailable</html>" (inl not_json).

Definition list_body : http_result :=
  Response 200 "[1, 2]" (inr (PList [PInt 1; PInt 2])).

(** A conversation history whose second entry is a string, and the body of
    a 200 that is not JSON. *)
Definition broken_history : gmap string pyval :=
  {[ "conversationHistory" := PList [PDict (entry_dict ("user", "hello")); PStr "oops"] ]}.

Definition reply_broken_history : http_result :=
  Response 200
    ("{" +:+ quoted "conversationHistory" +:+ ": [" +:+
     entry_text ("user", "hello") +:+ ", " +:+ quoted "oops" +:+ "]}")
    (inr (PDict broken_history)).

Definition html_200 : http_result := Response 200 "<html>It works!</html>" (inl not_json).

(** A logged message whose display raises: shown as the assistant's, with a
    non-empty string as its timestamp. *)
Definition unrenderable (m : message) : Prop :=
  role m <> PStr "user" /\ exists s, s <> "" /\ timestamp m = PStr s.

(** A logged message that the chat display gets through: the user's, one
    without a truthy timestamp, or one whose timestamp is a number that
    [fromtimestamp] accepts. *)
Definition renderable (e : env) (m : message) : bool :=
  match role m with
  | PStr "user" => true
  | _ =>
      if truthy (timestamp m)
      then match timestamp m with
           | PInt _ | PFloat _ | PBool _ =>
               match fromtimestamp e (timestamp m) with inr _ => true | inl _ => false end
           | _ => false
           end
      else true
  end.

(** A history whose only entry carries an ISO date as its timestamp. *)
Definition iso_stamped : gmap string pyval :=
  {[ "role" := PStr "assistant"; "content" := PStr "hi there";
     "timestamp" := PStr "2024-01-01T12:00:00Z" ]}.



(** The first exchange of [talk] as the backend stores it, each entry with
    the time it was recorded at, and the history body made of it. *)
Definition stamped_talk : list (gmap string pyval) :=
  [ {[ "role" := PStr "user"; "content" := PStr "hello";
       "timestamp" := PInt 1704110340000 ]};
    {[ "role" := PStr "assistant"; "content" := PStr "hi there";
       "timestamp" := PInt 1704110341500 ]} ].

Definition history_stamped : http_result :=
  Response 200
    ("{" +:+ quoted "history" +:+ ": [{" +:+
     quoted "role" +:+ ": " +:+ quoted "user" +:+ ", " +:+
     quoted "content" +:+ ": " +:+ quoted "hello" +:+ ", " +:+
     quoted "timestamp" +:+ ": 1704110340000}, {" +:+
     quoted "role" +:+ ": " +:+ quoted "assistant" +:+ ", " +:+
     quoted "content" +:+ ": " +:+ quoted "hi there" +:+ ", " +:+
     quoted "timestamp" +:+ ": 1704110341500}]}")
    (inr (PDict {[ "history" := PList (PDict <$> stamped_talk) ]})).

(** A health body whose integer literal is longer than the interpreter's
    digit limit (4300 by default): [response.json()] raises [ValueError] on
    it. *)
Fixpoint nines (n : nat) : string :=
  match n with
  | O => EmptyString
  | S n => String "9"%char (nines n)
  end.

Definition health_overlong : http_result :=
  ResponseRefused 200
    ("{" +:+ quoted "uptime" +:+ ": " +:+ nines (50 * 100) +:+ "}") ValueError.

(** * Properties *)

(** ** The monad and the loop *)

Lemma bind_done {A B} (c : script A) (k : A -> script B) r a r1 :
  c r = (Done a, r1) -> bind c k r = k a r1.
Proof. intros H. unfold bind. now rewrite H. Qed.

Lemma bind_halted {A B} (c : script A) (k : A -> script B) r h r1 :
  c r = (Halted h, r1) -> bind c k r = (Halted h, r1).
Proof. intros H. unfold bind. now rewrite H. Qed.

Lemma with_log_with_log l1 l2 r : with_log l1 (with_log l2 r) = with_log l1 r.
Proof. reflexivity. Qed.

Lemma with_log_same r : with_log (messages (session r)) r = r.
Proof. now destruct r as [[] ? ? ?]. Qed.

Lemma append_message_run m r :
  append_message m r = (Done tt, with_log (messages (session r) ++ [m]) r).
Proof. reflexivity. Qed.

Lemma set_messages_run l r : set_messages l r = (Done tt, with_log l r).
Proof. reflexivity. Qed.

Lemma append_entry_dict d r :
  append_entry (PDict d) r = (Done tt, with_log (messages (session r) ++ [entry_of d]) r).
Proof. reflexivity. Qed.

Lemma append_entry_other v r :
  (forall d, v <> PDict d) -> append_entry v r = (Halted (Raised AttributeError), r).
Proof. intros H. destruct v; try reflexivity. now destruct (H d). Qed.

(** Copying a list of JSON objects appends their entries, in order. *)
Lemma for_each_entries (h : list (gmap string pyval)) r :
  for_each (PDict <$> h) append_entry r
  = (Done tt, with_log (messages (session r) ++ (entry_of <$> h)) r).
Proof.
  revert r. induction h as [|d h IH]; intros r; simpl.
  - unfold ret. now rewrite app_nil_r, with_log_same.
  - erewrite bind_done by apply append_entry_dict.
    rewrite IH. simpl. now rewrite <- app_assoc.
Qed.

(** The loop ends normally only on a list of JSON objects; it never stops or
    reruns the script. *)
Lemma for_each_inv items r res r' :
  for_each items append_entry r = (res, r') ->
  match res with
  | Done _ =>
      exists h, items = PDict <$> h /\
                r' = with_log (messages (session r) ++ (entry_of <$> h)) r
  | Halted x => x = Raised AttributeError
  end.
Proof.
  revert r. induction items as [|v items IH]; intros r; simpl.
  - unfold ret. intros [= <- <-]. exists []. simpl.
    now rewrite app_nil_r, with_log_same.
  - destruct v as [| | | | | |d];
      try (intros [= <- <-]; reflexivity).
    erewrite bind_done by apply append_entry_dict.
    intros H. apply IH in H. destruct res as [[]|x]; [|exact H].
    destruct H as (h & -> & ->). exists (d :: h). split; [reflexivity|].
    simpl. now rewrite <- app_assoc.
Qed.

Lemma send_message_run e prompt r :
  send_message e prompt r
  = (outcome (chat_result (chat_answer e r prompt)),
     sending (chat_request e (thread_id (session r)) prompt) r).
Proof.
  unfold send_message, chat_answer, bind, get_session, http. simpl.
  destruct (network _ _ _) as [code text [msg|v]|code text x|msg|msg]; simpl;
    try reflexivity; destruct (Z.eqb code 200); reflexivity.
Qed.

(** Lines 160-173: a result with an ["error"] key. *)
Lemma apply_result_error e prompt d err r :
  d !! "error" = Some err ->
  apply_result e prompt (PDict d) r
  = (Done tt,
     with_log
       (exchange e prompt
          (PStr ("Error: " +:+
                 py_str e (default (PStr "No response received") (d !! "response")))) r)
       (ticking 2 (showing (st_error ("Error: " +:+ py_str e err)) r))).
Proof.
  intros H. unfold apply_result, bind, lift, ret. simpl. rewrite H.
  unfold append_message, set_messages, bind, get_session, put_session, with_log, exchange.
  simpl. now rewrite <- app_assoc.
Qed.

(** Lines 176-184: no ["error"] key and a non-empty list of JSON objects
    under ["conversationHistory"]. *)
Lemma apply_result_history e prompt d h r :
  d !! "error" = None ->
  d !! "conversationHistory" = Some (PList (PDict <$> h)) ->
  h <> [] ->
  apply_result e prompt (PDict d) r = (Done tt, with_log (entry_of <$> h) r).
Proof.
  intros He Hh Hne. unfold apply_result, bind, lift, ret. simpl. rewrite He, Hh.
  destruct h as [|d0 h]; [congruence|]. simpl.
  change (for_each (PDict <$> d0 :: h) append_entry (with_log [] r)
          = (Done tt, with_log (entry_of <$> d0 :: h) r)).
  now rewrite for_each_entries.
Qed.

(** Lines 185-197: no ["error"] key and nothing truthy under
    ["conversationHistory"]. *)
Lemma apply_result_fallback e prompt d r :
  d !! "error" = None ->
  match d !! "conversationHistory" with
  | Some v => truthy v = false
  | None => True
  end ->
  apply_result e prompt (PDict d) r
  = (Done tt,
     with_log (exchange e prompt (default (PStr "No response received") (d !! "response")) r)
              (ticking 2 r)).
Proof.
  intros He Hh. unfold apply_result, bind, lift, ret. simpl. rewrite He.
  destruct (d !! "conversationHistory") as [v|]; simpl; [rewrite Hh|];
    unfold append_message, set_messages, bind, get_session, put_session, with_log, exchange;
    simpl; now rewrite <- app_assoc.
Qed.

(** Lines 150-200 once the guard is passed. *)
Lemma chat_input_submitted_run e prompt r :
  prompt <> "" ->
  api_available (session r) = true ->
  chat_input_submitted e prompt r
  = match chat_result (chat_answer e r prompt) with
    | inl x => (Halted (Raised x), sending (chat_request e (thread_id (session r)) prompt) r)
    | inr result =>
        match apply_result e prompt result
                (sending (chat_request e (thread_id (session r)) prompt) r) with
        | (Done _, r') => (Halted Rerun, r')
        | (Halted x, r') => (Halted x, r')
        end
    end.
Proof.
  intros Hp Ha. unfold chat_input_submitted.
  apply String.eqb_neq in Hp. rewrite Hp.
  unfold bind at 1. unfold get_session at 1. rewrite Ha.
  unfold bind at 1. unfold ret at 1.
  unfold bind at 1. rewrite send_message_run.
  destruct (chat_result _) as [x|result]; [reflexivity|]. cbn [outcome].
  unfold bind. destruct (apply_result _ _ _ _) as [[[]|x] r']; reflexivity.
Qed.

(** Lines 151-153: the guard. *)
Lemma chat_input_submitted_unavailable e prompt r :
  prompt <> "" ->
  api_available (session r) = false ->
  chat_input_submitted e prompt r
  = (Halted Stop,
     showing (st_error "API is not available. Please check the API server is running.") r).
Proof.
  intros Hp Ha. unfold chat_input_submitted.
  apply String.eqb_neq in Hp. rewrite Hp.
  unfold bind at 1. unfold get_session at 1. rewrite Ha. reflexivity.
Qed.

(** A truthy value that the copying loop gets through is a non-empty list of
    JSON objects: the items of a dict or of a string are strings, which have
    no [get]. *)
Lemma copied_history_is_list v items r r' :
  truthy v = true ->
  py_iter v = inr items ->
  for_each items append_entry r = (Done tt, r') ->
  exists h, v = PList (PDict <$> h) /\ h <> [] /\
            r' = with_log (messages (session r) ++ (entry_of <$> h)) r.
Proof.
  intros Ht Hi Hf. apply for_each_inv in Hf as (h & -> & ->).
  destruct v as [| | | |s|l|d]; simpl in Hi; try discriminate.
  - destruct s as [|c s]; [discriminate Ht|].
    destruct h; discriminate Hi.
  - injection Hi as ->. exists h. repeat split.
    intros ->. discriminate Ht.
  - injection Hi as Hi. simpl in Ht.
    destruct (map_to_list d) as [|[k x] l] eqn:Hl.
    + apply map_to_list_empty_iff in Hl. subst d.
      rewrite bool_decide_eq_true_2 in Ht by reflexivity. discriminate Ht.
    + destruct h; discriminate Hi.
Qed.


(** What [apply_result] can do when it ends normally, and that it never
    stops or reruns the script by itself. *)
Lemma apply_result_inv e prompt result r res r' :
  apply_result e prompt result r = (res, r') ->
  match res with
  | Done _ =>
      (exists d h, result = PDict d /\ d !! "error" = None /\
                   d !! "conversationHistory" = Some (PList (PDict <$> h)) /\
                   h <> [] /\ messages (session r') = entry_of <$> h)
      \/ (exists reply, messages (session r') = exchange e prompt reply r)
  | Halted x => exists y, x = Raised y
  end.
Proof.
  destruct result as [| | | |s|l|d]; try (intros [= <- <-]; eexists; reflexivity).
  - unfold apply_result, bind, lift, ret; simpl.
    destruct (is_substring "error" s); [intros [= <- <-]; eexists; reflexivity|].
    destruct (is_substring "conversationHistory" s); intros [= <- <-]; eexists; reflexivity.
  - unfold apply_result, bind, lift, ret; simpl.
    destruct (existsb _ l); [intros [= <- <-]; eexists; reflexivity|].
    destruct (existsb _ l); intros [= <- <-]; eexists; reflexivity.
  - destruct (d !! "error") as [err|] eqn:He.
    { rewrite (apply_result_error _ _ _ _ _ He). intros [= <- <-].
      right. eexists. reflexivity. }
    destruct (d !! "conversationHistory") as [v|] eqn:Hh.
    2:{ rewrite apply_result_fallback by (rewrite ?Hh; done). intros [= <- <-].
        right. eexists. reflexivity. }
    destruct (truthy v) eqn:Ht.
    2:{ rewrite apply_result_fallback by (rewrite ?Hh; done). intros [= <- <-].
        right. eexists. reflexivity. }
    unfold apply_result, bind, lift, ret; simpl. rewrite He, Hh. simpl. rewrite Ht.
    fold (with_log [] r).
    destruct (py_iter v) as [x|items] eqn:Hi.
    { intros [= <- <-]. eexists. reflexivity. }
    intros Hf. destruct res as [[]|x].
    + destruct (copied_history_is_list _ _ _ _ Ht Hi Hf) as (h & -> & Hne & ->).
      left. exists d, h. repeat split; trivial.
    + apply for_each_inv in Hf. eauto.
Qed.

(** ** The history fetch and the "Load History" button *)

Lemma load_history_ok e r d :
  ok_body (history_answer e r) d ->
  load_history e r
  = (Done (default (PList []) (d !! "history")),
     sending (history_request e (thread_id (session r))) r).
Proof.
  intros [text H]. unfold load_history, bind, get_session, http. simpl.
  unfold history_answer in H. now rewrite H.
Qed.



(** Lines 212-221: a non-empty list of JSON objects replaces the log. *)
Lemma load_history_clicked_loaded e r d h :
  api_available (session r) = true ->
  ok_body (history_answer e r) d ->
  d !! "history" = Some (PList (PDict <$> h)) ->
  h <> [] ->
  load_history_clicked e r
  = (Halted Rerun,
     showing (st_success ("Loaded " +:+ pretty (length h) +:+ " messages"))
       (with_log (entry_of <$> h)
          (sending (history_request e (thread_id (session r))) r))).
Proof.
  intros Ha Hb Hh Hne. unfold load_history_clicked.
  unfold bind at 1. unfold get_session at 1. rewrite Ha.
  unfold bind at 1. rewrite (load_history_ok _ _ _ Hb), Hh.
  change (default (PList []) (Some (PList (PDict <$> h)))) with (PList (PDict <$> h)).
  replace (truthy (PList (PDict <$> h))) with true by (now destruct h).
  unfold bind at 1. rewrite set_messages_run.
  unfold bind at 1. cbn [lift py_iter]. unfold ret at 1.
  unfold bind at 1. rewrite for_each_entries.
  unfold bind, lift, ret, show, st_rerun, showing. simpl.
  now rewrite length_fmap.
Qed.

(** Lines 222-223: a falsy history. *)
Lemma load_history_clicked_nothing e r v r1 :
  api_available (session r) = true ->
  load_history e r = (Done v, r1) ->
  truthy v = false ->
  load_history_clicked e r = (Done tt, showing (st_info "No history found") r1).
Proof.
  intros Ha Hl Ht. unfold load_history_clicked.
  unfold bind at 1. unfold get_session at 1. rewrite Ha.
  unfold bind at 1. rewrite Hl, Ht. reflexivity.
Qed.



(** The chat input reruns the script exactly when the guard is passed and
    [apply_result] ends normally. *)
Lemma chat_input_submitted_inv e prompt r r' :
  chat_input_submitted e prompt r = (Halted Rerun, r') ->
  prompt <> "" /\
  api_available (session r) = true /\
  exists result,
    chat_result (chat_answer e r prompt) = inr result /\
    apply_result e prompt result
      (sending (chat_request e (thread_id (session r)) prompt) r) = (Done tt, r').
Proof.
  intros H.
  destruct (String.eqb_spec prompt "") as [->|Hp]; [discriminate H|].
  destruct (api_available (session r)) eqn:Ha.
  2:{ rewrite chat_input_submitted_unavailable in H by assumption. discriminate H. }
  rewrite chat_input_submitted_run in H by assumption.
  repeat split; trivial.
  destruct (chat_result _) as [x|result]; [discriminate H|].
  exists result. split; [reflexivity|].
  destruct (apply_result _ _ _ _) as [[[]|x] r1] eqn:Hr.
  - now injection H as ->.
  - apply apply_result_inv in Hr as [y ->]. discriminate H.
Qed.

(** An entry that has exactly the three keys of a message is stored as it
    is: the dict appended to the log is the backend's. *)
Lemma entry_of_verbatim (d : gmap string pyval) :
  dom d = {[ "role"; "content"; "timestamp" ]} ->
  dict_of (entry_of d) = d.
Proof.
  intros Hd.
  assert (Hin : forall k, k ∈ dom d <-> k = "role" \/ k = "content" \/ k = "timestamp").
  { intros k. rewrite Hd, !elem_of_union, !elem_of_singleton. tauto. }
  assert (Hx : "role" ∈ dom d) by (apply Hin; auto).
  assert (Hy : "content" ∈ dom d) by (apply Hin; auto).
  assert (Hz : "timestamp" ∈ dom d) by (apply Hin; auto).
  apply elem_of_dom in Hx as [x Hx]. apply elem_of_dom in Hy as [y Hy].
  apply elem_of_dom in Hz as [z Hz].
  apply map_eq. intros k. unfold dict_of, entry_of. simpl. rewrite Hx, Hy, Hz. simpl.
  destruct (decide (k = "role")) as [->|Hr]; [now rewrite lookup_insert_eq|].
  rewrite lookup_insert_ne by congruence.
  destruct (decide (k = "content")) as [->|Hc]; [now rewrite lookup_insert_eq|].
  rewrite lookup_insert_ne by congruence.
  destruct (decide (k = "timestamp")) as [->|Ht]; [now rewrite lookup_singleton_eq|].
  rewrite lookup_singleton_ne by congruence.
  symmetry. apply not_elem_of_dom. rewrite Hin. tauto.
Qed.

(** C3. A successful send whose result has no error key, no (non-empty)
    conversation history and the response string [reply] leaves a log with
    exactly two more entries: the user's text, then the reply, with roles
    "user" and "assistant"; every earlier entry keeps its position. *)
Theorem single_response_appends_two e r prompt d reply :
  prompt <> "" ->
  api_available (session r) = true ->
  ok_body (chat_answer e r prompt) d ->
  d !! "error" = None ->
  match d !! "conversationHistory" with
  | Some v => truthy v = false
  | None => True
  end ->
  d !! "response" = Some (PStr reply) ->
  exists r' t1 t2,
    chat_input_submitted e prompt r = (Halted Rerun, r') /\
    messages (session r') =
      messages (session r) ++
        [ {| role := PStr "user"; content := PStr prompt; timestamp := PInt t1 |};
          {| role := PStr "assistant"; content := PStr reply; timestamp := PInt t2 |} ] /\
    length (messages (session r')) = S (S (length (messages (session r)))) /\
    forall i m, messages (session r) !! i = Some m -> messages (session r') !! i = Some m.
Proof.
  intros Hp Ha [text Hb] He Hh Hr.
  rewrite chat_input_submitted_run by assumption.
  rewrite Hb. cbn [chat_result Z.eqb Pos.eqb].
  rewrite apply_result_fallback by assumption. rewrite Hr.
  eexists. exists (epoch_ms (now e (ticks r))), (epoch_ms (now e (S (ticks r)))).
  split; [reflexivity|]. cbn [with_log session messages exchange ticking sending ticks].
  split; [reflexivity|]. split.
  - unfold exchange. rewrite length_app. simpl. lia.
  - intros i m Hi. unfold exchange. now apply lookup_app_l_Some.
Qed.

Lemma single_response_appends_two_witness :
  exists r' t1 t2,
    chat_input_submitted (backend no_history reply_hi_there) "hello"
      (session_with earlier_exchange true)
    = (Halted Rerun, r') /\
    messages (session r') =
      earlier_exchange ++
        [ {| role := PStr "user"; content := PStr "hello"; timestamp := PInt t1 |};
          {| role := PStr "assistant"; content := PStr "hi there";
             timestamp := PInt t2 |} ] /\
    length (messages (session r')) = 4%nat /\
    forall i m, earlier_exchange !! i = Some m -> messages (session r') !! i = Some m.
Proof.
  apply (single_response_appends_two (backend no_history reply_hi_there)
           (session_with earlier_exchange true) "hello"
           {[ "response" := PStr "hi there" ]} "hi there").
  - discriminate.
  - reflexivity.
  - eexists. reflexivity.
  - reflexivity.
  - vm_compute. exact I.
  - reflexivity.
Defined.

(** C9. A 200 whose JSON object has an "error" key goes down the error
    path, whatever else the object carries (a full conversationHistory
    included): the error is shown, and the log gains the user message and an
    assistant message "Error: " followed by the object's response text
    ("No response received" when it has none). *)
Theorem error_key_takes_precedence e r prompt d err :
  prompt <> "" ->
  api_available (session r) = true ->
  ok_body (chat_answer e r prompt) d ->
  d !! "error" = Some err ->
  exists r' t1 t2,
    chat_input_submitted e prompt r = (Halted Rerun, r') /\
    messages (session r') =
      messages (session r) ++
        [ {| role := PStr "user"; content := PStr prompt; timestamp := PInt t1 |};
          {| role := PStr "assistant";
             content :=
               PStr ("Error: " +:+
                     py_str e (default (PStr "No response received") (d !! "response")));
             timestamp := PInt t2 |} ] /\
    page r' = page r ++ [st_error ("Error: " +:+ py_str e err)].
Proof.
  intros Hp Ha [text Hb] He.
  rewrite chat_input_submitted_run by assumption.
  rewrite Hb. cbn [chat_result Z.eqb Pos.eqb].
  rewrite (apply_result_error _ _ _ _ _ He).
  eexists. exists (epoch_ms (now e (ticks r))), (epoch_ms (now e (S (ticks r)))).
  repeat split.
Qed.

Lemma error_key_takes_precedence_witness :
  exists r' t1 t2,
    chat_input_submitted (backend no_history reply_error_and_history) "hello"
      (session_with earlier_exchange true)
    = (Halted Rerun, r') /\
    messages (session r') =
      earlier_exchange ++
        [ {| role := PStr "user"; content := PStr "hello"; timestamp := PInt t1 |};
          {| role := PStr "assistant"; content := PStr "Error: No response received";
             timestamp := PInt t2 |} ] /\
    page r' = [st_error "Error: graph failed"].
Proof.
  apply (error_key_takes_precedence (backend no_history reply_error_and_history)
           (session_with earlier_exchange true) "hello" error_and_history
           (PStr "graph failed")).
  - discriminate.
  - reflexivity.
  - eexists. reflexivity.
  - reflexivity.
Defined.

(** C7. When the backend answers the "Load History" button with an empty
    history list, the log (empty or not) stays as it is, entry for entry,
    and the page gets the notice "No history found" and no error. *)
Theorem reload_empty_keeps_log e r d :
  api_available (session r) = true ->
  ok_body (history_answer e r) d ->
  d !! "history" = Some (PList []) ->
  exists r',
    load_history_clicked e r = (Done tt, r') /\
    session r' = session r /\
    length (messages (session r')) = length (messages (session r)) /\
    (forall i, messages (session r') !! i = messages (session r) !! i) /\
    page r' = page r ++ [st_info "No history found"].
Proof.
  intros Ha Hb Hh.
  rewrite (load_history_clicked_nothing e r (PList [])
             (sending (history_request e (thread_id (session r))) r)); trivial.
  - eexists. repeat split.
  - rewrite (load_history_ok _ _ _ Hb), Hh. reflexivity.
Qed.

Lemma reload_empty_keeps_log_witness :
  exists r',
    load_history_clicked (backend no_history reply_hi_there)
      (session_with earlier_exchange true) = (Done tt, r') /\
    session r' = session (session_with earlier_exchange true) /\
    length (messages (session r')) = 2%nat /\
    (forall i, messages (session r') !! i = earlier_exchange !! i) /\
    page r' = [st_info "No history found"].
Proof.
  apply (reload_empty_keeps_log (backend no_history reply_hi_there)
           (session_with earlier_exchange true) {[ "history" := PList [] ]}).
  - reflexivity.
  - eexists. reflexivity.
  - reflexivity.
Defined.

(** ** Thread identifiers *)

Lemma digit_char_inj a b :
  0 <= a < 10 -> 0 <= b < 10 -> digit_char a = digit_char b -> a = b.
Proof.
  intros Ha Hb H. unfold digit_char in H.
  apply (f_equal N_of_ascii) in H.
  rewrite !N_ascii_embedding in H by lia. lia.
Qed.

Lemma string_cons_inj c1 s1 c2 s2 :
  String c1 s1 = String c2 s2 -> c1 = c2 /\ s1 = s2.
Proof. intros H. now injection H. Qed.

Lemma two_digits_inj a b :
  0 <= a < 100 -> 0 <= b < 100 -> two_digits a = two_digits b -> a = b.
Proof.
  intros Ha Hb H. unfold two_digits in H.
  apply string_cons_inj in H as [H1 H]. apply string_cons_inj in H as [H0 _].
  apply digit_char_inj in H1; [|Z.div_mod_to_equations; lia ..].
  apply digit_char_inj in H0; [|Z.div_mod_to_equations; lia ..].
  Z.div_mod_to_equations; lia.
Qed.

Lemma three_digits_inj a b :
  0 <= a < 1000 -> 0 <= b < 1000 -> three_digits a = three_digits b -> a = b.
Proof.
  intros Ha Hb H. unfold three_digits, two_digits in H.
  apply string_cons_inj in H as [H2 H].
  apply string_cons_inj in H as [H1 H]. apply string_cons_inj in H as [H0 _].
  apply digit_char_inj in H2; [|Z.div_mod_to_equations; lia ..].
  apply digit_char_inj in H1; [|Z.div_mod_to_equations; lia ..].
  apply digit_char_inj in H0; [|Z.div_mod_to_equations; lia ..].
  Z.div_mod_to_equations; lia.
Qed.

Lemma four_digits_inj a b :
  0 <= a < 10000 -> 0 <= b < 10000 -> four_digits a = four_digits b -> a = b.
Proof.
  intros Ha Hb H. unfold four_digits, three_digits, two_digits in H.
  apply string_cons_inj in H as [H3 H]. apply string_cons_inj in H as [H2 H].
  apply string_cons_inj in H as [H1 H]. apply string_cons_inj in H as [H0 _].
  apply digit_char_inj in H3; [|Z.div_mod_to_equations; lia ..].
  apply digit_char_inj in H2; [|Z.div_mod_to_equations; lia ..].
  apply digit_char_inj in H1; [|Z.div_mod_to_equations; lia ..].
  apply digit_char_inj in H0; [|Z.div_mod_to_equations; lia ..].
  Z.div_mod_to_equations; lia.
Qed.

Lemma append_two_digits_inj a b s t :
  two_digits a +:+ s = two_digits b +:+ t -> two_digits a = two_digits b /\ s = t.
Proof.
  unfold two_digits. cbn [String.append]. intros H.
  apply string_cons_inj in H as [-> H]. apply string_cons_inj in H as [-> H].
  now split.
Qed.

(** Takes the leading characters off both sides of an equation between
    strings, as far as both sides show them. *)
Ltac peel H :=
  repeat match type of H with
         | String _ _ = String _ _ =>
             let Hc := fresh "Hc" in apply string_cons_inj in H as [Hc H]
         end.

Ltac digits :=
  repeat match goal with
         | Hc : digit_char _ = digit_char _ |- _ =>
             apply digit_char_inj in Hc; [|Z.div_mod_to_equations; lia ..]
         end.

Lemma append_cons c s t : String c s +:+ t = String c (s +:+ t).
Proof. reflexivity. Qed.

Lemma append_empty t : EmptyString +:+ t = t.
Proof. reflexivity. Qed.

(** The year is printed without padding, so its digits are told apart from
    what follows by the length of the whole. *)
Lemma year_digits_append_inj y1 y2 s t :
  1 <= y1 <= 9999 -> 1 <= y2 <= 9999 ->
  String.length s = String.length t ->
  year_digits y1 +:+ s = year_digits y2 +:+ t -> y1 = y2 /\ s = t.
Proof.
  intros Hy1 Hy2 Hlen. unfold year_digits.
  destruct (Z.ltb_spec y1 10), (Z.ltb_spec y1 100), (Z.ltb_spec y1 1000),
           (Z.ltb_spec y2 10), (Z.ltb_spec y2 100), (Z.ltb_spec y2 1000);
    try (exfalso; lia);
    unfold four_digits, three_digits, two_digits;
    rewrite ?append_cons, ?append_empty; intros Heq;
    first [ exfalso; apply (f_equal String.length) in Heq; cbn [String.length] in Heq; lia
          | peel Heq; digits; split; [Z.div_mod_to_equations; lia|exact Heq] ].
Qed.

(** Two valid instants that print the same read the same local date and
    time, to the second. *)
Lemma strftime_inj t0 t1 :
  valid_instant t0 -> valid_instant t1 ->
  strftime t0 = strftime t1 -> calendar t0 = calendar t1.
Proof.
  intros (Hy0 & Hm0 & Hd0 & Hh0 & Hi0 & Hs0) (Hy1 & Hm1 & Hd1 & Hh1 & Hi1 & Hs1) H.
  unfold strftime in H.
  apply year_digits_append_inj in H as [Hy H]; [|lia|lia|reflexivity].
  apply append_two_digits_inj in H as [Hm H].
  apply append_two_digits_inj in H as [Hd H].
  cbn [String.append] in H. apply string_cons_inj in H as [_ H].
  apply append_two_digits_inj in H as [Hh H].
  apply append_two_digits_inj in H as [Hi Hs].
  apply two_digits_inj in Hm; [|lia..].
  apply two_digits_inj in Hd; [|lia..].
  apply two_digits_inj in Hh; [|lia..].
  apply two_digits_inj in Hi; [|lia..].
  apply two_digits_inj in Hs; [|lia..].
  unfold calendar. congruence.
Qed.

(** ** Full history against single response *)

(** A successful send whose result carries a non-empty list of JSON objects
    as its conversation history replaces the log by it. *)
Lemma chat_input_submitted_history e r prompt d h :
  prompt <> "" ->
  api_available (session r) = true ->
  ok_body (chat_answer e r prompt) d ->
  d !! "error" = None ->
  d !! "conversationHistory" = Some (PList (PDict <$> h)) ->
  h <> [] ->
  chat_input_submitted e prompt r
  = (Halted Rerun,
     with_log (entry_of <$> h) (sending (chat_request e (thread_id (session r)) prompt) r)).
Proof.
  intros Hp Ha [text Hb] He Hh Hne.
  rewrite chat_input_submitted_run by assumption.
  rewrite Hb. cbn [chat_result Z.eqb Pos.eqb].
  now rewrite (apply_result_history _ _ _ h) by assumption.
Qed.

(** C4 (as the code has it). When a successful result has both keys and its
    conversation history is a non-empty list of message objects, the log is
    replaced by that history and the response string is not appended. *)
Theorem full_history_wins e r prompt d h reply :
  prompt <> "" ->
  api_available (session r) = true ->
  ok_body (chat_answer e r prompt) d ->
  d !! "error" = None ->
  d !! "conversationHistory" = Some (PList (PDict <$> h)) ->
  h <> [] ->
  d !! "response" = Some reply ->
  exists r',
    chat_input_submitted e prompt r = (Halted Rerun, r') /\
    messages (session r') = entry_of <$> h.
Proof.
  intros Hp Ha Hb He Hh Hne _.
  rewrite (chat_input_submitted_history _ _ _ d h) by assumption.
  eexists. split; reflexivity.
Qed.

Lemma full_history_wins_witness :
  exists r',
    chat_input_submitted (backend no_history reply_talk_and_response) "hello"
      (session_with earlier_exchange true) = (Halted Rerun, r') /\
    messages (session r') = entry_of <$> talk_so_far 2.
Proof.
  apply (full_history_wins _ _ _ talk_and_response (talk_so_far 2) (PStr "hi there")).
  - discriminate.
  - reflexivity.
  - eexists. reflexivity.
  - reflexivity.
  - reflexivity.
  - discriminate.
  - reflexivity.
Defined.

(** C4, counterexample. Both keys are present, the conversation history is
    the empty list: the log is not replaced by it, and the response is
    appended after the user's message. *)
Lemma empty_history_does_not_win :
  let e := backend no_history reply_empty_history_and_response in
  let r := session_with earlier_exchange true in
  ok_body (chat_answer e r "hello") empty_history_and_response /\
  empty_history_and_response !! "error" = None /\
  empty_history_and_response !! "conversationHistory" = Some (PList []) /\
  empty_history_and_response !! "response" = Some (PStr "hi there") /\
  exists r',
    chat_input_submitted e "hello" r = (Halted Rerun, r') /\
    messages (session r') =
      earlier_exchange ++
        [user_message "hello" 1704110400001;
         assistant_message (PStr "hi there") 1704110400002] /\
    messages (session r') <> [].
Proof.
  cbv zeta. split; [eexists; reflexivity|]. repeat split.
  eexists. split; [vm_compute; reflexivity|]. split; [reflexivity|discriminate].
Qed.

(** ** Error results *)

(** On a timeout, another network failure or a response that is not a 200,
    [send_message] returns an error result whose response entry is the
    error's display text. *)
Lemma chat_result_error a text :
  error_text a = Some text ->
  exists err, chat_result a = inr (PDict {[ "error" := PStr err; "response" := PStr text ]}).
Proof.
  destruct a as [code body json|code body x|msg|msg]; simpl.
  - destruct (Z.eqb code 200); [discriminate|]. intros [= <-]. eexists. reflexivity.
  - destruct (Z.eqb code 200); [discriminate|]. intros [= <-]. eexists. reflexivity.
  - intros [= <-]. eexists. reflexivity.
  - intros [= <-]. eexists. reflexivity.
Qed.

(** Lines 160-173 on such a result. *)
Lemma chat_input_submitted_error e r prompt text :
  prompt <> "" ->
  api_available (session r) = true ->
  error_text (chat_answer e r prompt) = Some text ->
  exists r',
    chat_input_submitted e prompt r = (Halted Rerun, r') /\
    messages (session r') =
      exchange e prompt (PStr ("Error: " +:+ text)) r.
Proof.
  intros Hp Ha Ht.
  rewrite chat_input_submitted_run by assumption.
  destruct (chat_result_error _ _ Ht) as [err ->].
  rewrite (apply_result_error _ _ _ (PStr err)) by reflexivity.
  eexists. split; reflexivity.
Qed.

(** The timeout of the spec's scenario. *)
Lemma send_timeout_text e r prompt msg :
  prompt <> "" ->
  api_available (session r) = true ->
  chat_answer e r prompt = Timeout msg ->
  exists r',
    chat_input_submitted e prompt r = (Halted Rerun, r') /\
    messages (session r') =
      exchange e prompt (PStr "Error: The request took too long. Please try again.") r.
Proof.
  intros Hp Ha Ht. apply chat_input_submitted_error; trivial. now rewrite Ht.
Qed.

(** C8 (as the code has it). A send that yields an error result (timeout,
    network failure, response that is not a 200) adds to the log exactly the
    user message and an assistant message "Error: " followed by the error's
    display text: the fixed sentence on a timeout, the raw body (empty or
    not) on a response that is not a 200, "Error connecting to API: " and
    the failure's description otherwise. *)
Theorem send_error_appends_marked_text e r prompt text :
  prompt <> "" ->
  api_available (session r) = true ->
  error_text (chat_answer e r prompt) = Some text ->
  exists r' t1 t2,
    chat_input_submitted e prompt r = (Halted Rerun, r') /\
    messages (session r') =
      messages (session r) ++
        [ {| role := PStr "user"; content := PStr prompt; timestamp := PInt t1 |};
          {| role := PStr "assistant"; content := PStr ("Error: " +:+ text);
             timestamp := PInt t2 |} ].
Proof.
  intros Hp Ha Ht.
  destruct (chat_input_submitted_error e r prompt text Hp Ha Ht) as (r' & H & Hm).
  exists r', (epoch_ms (now e (ticks r))), (epoch_ms (now e (S (ticks r)))).
  split; assumption.
Qed.

Lemma send_error_appends_marked_text_witness :
  exists r' t1 t2,
    chat_input_submitted (backend no_history server_exploded) "hello"
      (session_with [] true) = (Halted Rerun, r') /\
    messages (session r') =
      [] ++
        [ {| role := PStr "user"; content := PStr "hello"; timestamp := PInt t1 |};
          {| role := PStr "assistant"; content := PStr "Error: server exploded";
             timestamp := PInt t2 |} ].
Proof.
  apply (send_error_appends_marked_text (backend no_history server_exploded)
           (session_with [] true) "hello" "server exploded").
  - discriminate.
  - reflexivity.
  - reflexivity.
Defined.

(** C8, counterexample. A 500 with an empty body has no body text, and the
    assistant message is the bare marker "Error: ", not the fallback "No
    response received". *)
Lemma empty_body_is_not_replaced :
  let e := backend no_history empty_500 in
  let r := session_with [] true in
  exists r',
    chat_input_submitted e "hello" r = (Halted Rerun, r') /\
    messages (session r') =
      [user_message "hello" 1704110400001;
       assistant_message (PStr "Error: ") 1704110400002] /\
    messages (session r') <>
      [user_message "hello" 1704110400001;
       assistant_message (PStr "Error: No response received") 1704110400002].
Proof.
  cbv zeta. eexists. split; [vm_compute; reflexivity|].
  split; [reflexivity|discriminate].
Qed.

(** ** Whole runs of the script *)

(** The "first load" block does nothing once the log is not empty. *)
Lemma load_on_empty_log_skipped e r :
  messages (session r) <> [] -> load_on_empty_log e r = (Done tt, r).
Proof.
  intros H. unfold load_on_empty_log, bind, get_session.
  destruct (messages (session r)); [congruence|reflexivity].
Qed.

(** The banner only writes to the page. *)
Lemma show_api_status_run e r :
  exists r', show_api_status e r = (Done tt, r') /\
             session r' = session r /\ sent r' = sent r /\ ticks r' = ticks r.
Proof.
  unfold show_api_status, bind, get_session.
  destruct (api_available (session r)); eexists; repeat split.
Qed.

Lemma show_message_run e m r res r' :
  show_message e m r = (res, r') ->
  session r' = session r /\ sent r' = sent r /\ ticks r' = ticks r /\
  match res with Done _ => True | Halted x => exists y, x = Raised y end.
Proof.
  unfold show_message, bind, show, raise, ret.
  repeat match goal with
         | |- context [match ?x with _ => _ end] => destruct x
         end;
    intros [= <- <-]; simpl; repeat split; eauto.
Qed.

(** The chat display only writes to the page; it can raise on a timestamp
    that is not a number the clock library accepts. *)
Lemma show_messages_run e r res r' :
  show_messages e r = (res, r') ->
  session r' = session r /\ sent r' = sent r /\ ticks r' = ticks r /\
  match res with Done _ => True | Halted x => exists y, x = Raised y end.
Proof.
  unfold show_messages. unfold bind at 1. unfold get_session.
  generalize (messages (session r)). intros l. revert r.
  induction l as [|m l IH]; intros r; simpl.
  - intros [= <- <-]. repeat split.
  - unfold bind. destruct (show_message e m r) as [[[]|x] r1] eqn:Hm;
      apply show_message_run in Hm as (Hs & Hq & Ht & Hx).
    + intros H. apply IH in H as (Hs' & Hq' & Ht' & Hx').
      repeat split; congruence.
    + intros [= <- <-]. repeat split; assumption.
Qed.

(** On a non-empty log, what precedes the widgets' handlers in a run leaves
    session, requests and clock alone. *)
Lemma script_run_to_handlers e ev r :
  ev <> CheckStatusClicked ->
  messages (session r) <> [] ->
  exists res r1,
    (load_on_empty_log e;; show_api_status e;; show_messages e) r = (res, r1) /\
    session r1 = session r /\ sent r1 = sent r /\ ticks r1 = ticks r /\
    match res with Done _ => True | Halted x => exists y, x = Raised y end /\
    script_run e ev r =
      match res with
      | Done _ =>
          ((match ev with Submitted prompt => chat_input_submitted e prompt | _ => ret tt end);;
           (match ev with ClearClicked => clear_chat_clicked e | _ => ret tt end);;
           (match ev with LoadHistoryClicked => load_history_clicked e | _ => ret tt end)) r1
      | Halted x => (Halted x, r1)
      end.
Proof.
  intros Hev Hne.
  assert (Hrun : script_run e ev r =
    bind (load_on_empty_log e;; show_api_status e;; show_messages e)
      (fun _ =>
         (match ev with Submitted prompt => chat_input_submitted e prompt | _ => ret tt end);;
         (match ev with ClearClicked => clear_chat_clicked e | _ => ret tt end);;
         (match ev with LoadHistoryClicked => load_history_clicked e | _ => ret tt end)) r).
  { unfold script_run. destruct ev; try congruence; unfold bind, ret;
      destruct (load_on_empty_log e r) as [[[]|?] ?]; trivial;
      destruct (show_api_status e _) as [[[]|?] ?]; trivial;
      destruct (show_messages e _) as [[[]|?] ?]; trivial. }
  assert (Hpre : exists res r1,
            (load_on_empty_log e;; show_api_status e;; show_messages e) r = (res, r1) /\
            session r1 = session r /\ sent r1 = sent r /\ ticks r1 = ticks r /\
            match res with Done _ => True | Halted x => exists y, x = Raised y end).
  { erewrite bind_done by (apply load_on_empty_log_skipped, Hne).
    destruct (show_api_status_run e r) as (r0 & H0 & Hs0 & Hq0 & Ht0).
    erewrite bind_done by exact H0.
    destruct (show_messages e r0) as [res r1] eqn:Hm.
    apply show_messages_run in Hm as (Hs1 & Hq1 & Ht1 & Hx).
    exists res, r1. repeat split; congruence. }
  destruct Hpre as (res & r1 & Hpre & Hs & Hq & Ht & Hx).
  exists res, r1. repeat split; trivial.
  rewrite Hrun. destruct res as [[]|x].
  - now erewrite bind_done by exact Hpre.
  - now erewrite bind_halted by exact Hpre.
Qed.

(** C6 (as the code has it). When [api_available] is false as the chat
    input's guard reads it, the submission is rejected there: the error is
    shown, no request is issued and the log stays as it was.  On a non-empty
    log the guard reads the flag the submission found, and the whole run
    issues no request and leaves the session state as it was. *)
Theorem unavailable_submission_rejected e r prompt :
  prompt <> "" ->
  api_available (session r) = false ->
  (exists r',
     chat_input_submitted e prompt r = (Halted Stop, r') /\
     sent r' = sent r /\
     messages (session r') = messages (session r) /\
     page r' =
       page r ++ [st_error "API is not available. Please check the API server is running."])
  /\ (messages (session r) <> [] ->
      exists x r',
        script_run e (Submitted prompt) r = (Halted x, r') /\
        (x = Stop \/ exists y, x = Raised y) /\
        sent r' = sent r /\
        session r' = session r).
Proof.
  intros Hp Ha. split.
  - rewrite chat_input_submitted_unavailable by assumption. eexists. repeat split.
  - intros Hne.
    destruct (script_run_to_handlers e (Submitted prompt) r ltac:(discriminate) Hne)
      as (res & r1 & _ & Hs & Hq & _ & Hx & ->).
    destruct res as [[]|x].
    + unfold bind at 1.
      rewrite chat_input_submitted_unavailable by congruence.
      eexists _, _. split; [reflexivity|]. simpl. auto.
    + destruct Hx as [y ->]. eexists _, _. split; [reflexivity|]. eauto.
Qed.

Lemma unavailable_submission_rejected_witness :
  (exists r',
     chat_input_submitted (backend no_history reply_hi_there) "hello"
       (session_with earlier_exchange false) = (Halted Stop, r') /\
     sent r' = [] /\
     messages (session r') = earlier_exchange /\
     page r' =
       [] ++ [st_error "API is not available. Please check the API server is running."])
  /\ (earlier_exchange <> [] ->
      exists x r',
        script_run (backend no_history reply_hi_there) (Submitted "hello")
          (session_with earlier_exchange false) = (Halted x, r') /\
        (x = Stop \/ exists y, x = Raised y) /\
        sent r' = [] /\
        session r' = session (session_with earlier_exchange false)).
Proof.
  apply (unavailable_submission_rejected (backend no_history reply_hi_there)
           (session_with earlier_exchange false) "hello").
  - discriminate.
  - reflexivity.
Defined.

(** C6, counterexample. The API server is started after the page: the
    first run finds it down, so the flag is false and the log empty.  The
    user then submits "hello": the run checks the health again, fetches the
    (empty) history and sends the message; three requests are issued and
    the log gains the exchange. *)
Lemma unavailable_flag_is_refreshed :
  let e := late_backend in
  let r := (script_run e NoEvent (new_session e before_first_run).2).2 in
  api_available (session r) = false /\
  messages (session r) = [] /\
  exists r',
    script_run e (Submitted "hello") r = (Halted Rerun, r') /\
    sent r' =
      sent r ++
        [health_request e;
         history_request e "thread_20240101_120000";
         chat_request e "thread_20240101_120000" "hello"] /\
    messages (session r') =
      [user_message "hello" 1704110400001;
       assistant_message (PStr "hi there") 1704110400002].
Proof.
  cbv zeta. split; [reflexivity|]. split; [reflexivity|].
  eexists. split; [vm_compute; reflexivity|]. split; reflexivity.
Qed.

(** A run in which no widget fires leaves a non-empty log, the requests and
    the clock as they are: between two sends, the rerun that the first one
    asks for changes nothing a later send depends on. *)
Lemma rerun_keeps_session e r res r' :
  messages (session r) <> [] ->
  script_run e NoEvent r = (res, r') ->
  session r' = session r /\ sent r' = sent r /\ ticks r' = ticks r.
Proof.
  intros Hne H.
  destruct (script_run_to_handlers e NoEvent r ltac:(discriminate) Hne)
    as (res1 & r1 & _ & Hs & Hq & Ht & _ & Hrun).
  rewrite Hrun in H. destruct res1 as [[]|x]; injection H as <- <-; auto.
Qed.

(** A user interaction whose run ends in [st.rerun()] with a non-empty log
    leaves the session in the state its handler produced. *)
Lemma interact_keeps_handler_state e ev r r1 :
  script_run e ev r = (Halted Rerun, r1) ->
  messages (session r1) <> [] ->
  session (interact e ev r).2 = session r1 /\
  sent (interact e ev r).2 = sent r1.
Proof.
  intros H Hne. unfold interact. rewrite H.
  destruct (script_run e NoEvent r1) as [res r'] eqn:Hr.
  apply rerun_keeps_session in Hr as (Hs & Hq & _); auto.
Qed.

(** ** The scenarios of the specification, from the first run on *)

(** Empty log, healthy backend, "hello" answered by [{"response": "hi
    there"}]. *)
Example scenario_single_response :
  let e := backend no_history reply_hi_there in
  let r := (interact e NoEvent (new_session e before_first_run).2).2 in
  api_available (session r) = true /\
  messages (session (interact e (Submitted "hello") r).2) =
    [user_message "hello" 1704110400001;
     assistant_message (PStr "hi there") 1704110400002].
Proof. cbv zeta. split; vm_compute; reflexivity. Qed.

(** The send times out. *)
Example scenario_timeout :
  let e := backend no_history (Timeout "Read timed out. (read timeout=60)") in
  let r := (interact e NoEvent (new_session e before_first_run).2).2 in
  messages (session (interact e (Submitted "hello") r).2) =
    [user_message "hello" 1704110400001;
     assistant_message (PStr "Error: The request took too long. Please try again.")
       1704110400002].
Proof. vm_compute. reflexivity. Qed.

(** The backend answers 500 with the body "server exploded". *)
Example scenario_server_error :
  let e := backend no_history server_exploded in
  let r := (interact e NoEvent (new_session e before_first_run).2).2 in
  let r' := (interact e (Submitted "hello") r).2 in
  messages (session r') =
    [user_message "hello" 1704110400001;
     assistant_message (PStr "Error: server exploded") 1704110400002] /\
  page r' !! 2%nat = Some (st_error "Error: API error: 500").
Proof. cbv zeta. split; vm_compute; reflexivity. Qed.

(** A history entry that is not a JSON object stops the replacement half
    way: the log is left with the entries copied before it. *)
Example scenario_malformed_history :
  let e := backend no_history
             (Response 200
                ("{" +:+ quoted "conversationHistory" +:+ ": [" +:+
                 entry_text ("user", "hello") +:+ ", " +:+ quoted "oops" +:+ "]}")
                (inr (PDict {[ "conversationHistory" :=
                                 PList [PDict (entry_dict ("user", "hello")); PStr "oops"] ]}))) in
  chat_input_submitted e "hello" (session_with earlier_exchange true)
  = (Halted (Raised AttributeError),
     with_log [entry_of (entry_dict ("user", "hello"))]
       (sending (chat_request e "thread_20240101_120000" "hello")
          (session_with earlier_exchange true))).
Proof. vm_compute. reflexivity. Qed.

(** The health check is answered by a 200 whose body holds an integer
    literal longer than the interpreter accepts: [response.json()] raises
    [ValueError], which [check_api_health] does not catch.  The first run of
    a session ends there, before anything is shown. *)
Example scenario_overlong_health_body :
  let e := backend_with_health health_overlong no_history reply_hi_there in
  let r := (new_session e before_first_run).2 in
  script_run e NoEvent r = (Halted (Raised ValueError), sending (health_request e) r).
Proof. vm_compute. reflexivity. Qed.

(** * Further properties of the script *)

(** ** The copying loop, interrupted or not *)

(** The loop copies the longest prefix of JSON objects, and raises on the
    first item that is not one; it touches nothing but the log. *)
Lemma for_each_prefix items r res r' :
  for_each items append_entry r = (res, r') ->
  exists h rest,
    items = (PDict <$> h) ++ rest /\
    r' = with_log (messages (session r) ++ (entry_of <$> h)) r /\
    match res with
    | Done _ => rest = []
    | Halted x => x = Raised AttributeError /\
                  exists v rest', rest = v :: rest' /\ not_object v
    end.
Proof.
  revert r res r'. induction items as [|v items IH]; intros r res r'; simpl.
  - intros [= <- <-]. exists [], []. simpl. now rewrite app_nil_r, with_log_same.
  - destruct v as [| | | | | |d];
      try (intros [= <- <-]; eexists [], (_ :: items); simpl;
           rewrite app_nil_r, with_log_same;
           split; [reflexivity|]; split; [reflexivity|]; split; [reflexivity|];
           eexists _, _; split; [reflexivity|]; intros ?; discriminate).
    erewrite bind_done by apply append_entry_dict.
    intros H. apply IH in H as (h & rest & -> & -> & Hres).
    exists (d :: h), rest. repeat split; trivial.
    simpl. now rewrite <- app_assoc.
Qed.

Lemma check_api_health_run e r :
  check_api_health e r
  = (outcome (health_value (health_answer e r)), sending (health_request e) r).
Proof.
  unfold check_api_health, health_answer, bind, http. simpl.
  destruct (network _ _ _) as [code text [msg|v]|code text x|msg|msg]; simpl;
    try reflexivity; destruct (Z.eqb code 200); reflexivity.
Qed.

(** [load_history] issues its one request and leaves session and clock
    alone, however it ends. *)
Lemma load_history_frame e r res r' :
  load_history e r = (res, r') ->
  session r' = session r /\
  sent r' = sent r ++ [history_request e (thread_id (session r))] /\
  ticks r' = ticks r /\
  match res with Done _ => True | Halted x => exists y, x = Raised y end.
Proof.
  unfold load_history, bind, get_session, http. simpl.
  destruct (network _ _ _) as [code text [msg|data]|code text x|msg|msg]; simpl;
    try (intros [= <- <-]; now repeat split).
  - destruct (Z.eqb code 200); intros [= <- <-]; now repeat split.
  - destruct (Z.eqb code 200); [|intros [= <- <-]; now repeat split].
    destruct data; simpl; intros [= <- <-]; repeat split; eauto.
  - destruct (Z.eqb code 200); intros [= <- <-]; repeat split; eauto.
Qed.

(** ** The "Check API Status" button *)

(** Lines 92-103 as a function of the health check's value. *)
Lemma check_status_clicked_run e r :
  check_status_clicked e r =
  let r0 := sending (health_request e) r in
  match health_value (health_answer e r) with
  | inl x => (Halted (Raised x), r0)
  | inr v =>
      if truthy v
      then
        let r1 := with_flag true (showing (st_success "✅ API is available") r0) in
        match v with
        | PDict d => (Done tt, showing (initialized_notice d) r1)
        | _ => (Halted (Raised AttributeError), r1)
        end
      else (Done tt, with_flag false (showing (st_error "❌ API is not available") r0))
  end.
Proof.
  unfold check_status_clicked. unfold bind at 1. rewrite check_api_health_run.
  cbv zeta. destruct (health_value (health_answer e r)) as [x|v]; [reflexivity|].
  cbn [outcome]. destruct (truthy v) eqn:Ht; [|reflexivity].
  destruct v as [| | | | | |d]; try reflexivity.
  unfold initialized_notice, bind, lift, ret, show, set_api_available, get_session,
    put_session, showing, with_flag. simpl.
  destruct (truthy (default PNone (d !! "initialized"))); reflexivity.
Qed.

(** X1. Whatever the backend answers, the "Check API Status" button issues
    exactly one request, the health check, and leaves the log and the thread
    identifier alone.  It ends normally, or raises [AttributeError] (a
    truthy body that is not a JSON object has no [get]), or lets through
    what [response.json()] raised on a 200 and [check_api_health] does not
    catch (a [ValueError] on an overlong integer literal, for instance);
    in that last case nothing is shown and the flag is not written. *)
Theorem status_button_frame e r :
  messages (session (check_status_clicked e r).2) = messages (session r) /\
  thread_id (session (check_status_clicked e r).2) = thread_id (session r) /\
  sent (check_status_clicked e r).2 = sent r ++ [health_request e] /\
  match health_value (health_answer e r) with
  | inr _ =>
      (check_status_clicked e r).1 = Done tt \/
      (check_status_clicked e r).1 = Halted (Raised AttributeError)
  | inl x =>
      check_status_clicked e r = (Halted (Raised x), sending (health_request e) r)
  end.
Proof.
  rewrite check_status_clicked_run. cbv zeta.
  destruct (health_value _) as [x|v]; [simpl; auto|].
  destruct (truthy _); [|simpl; auto].
  destruct v; simpl; auto.
Qed.

(** X2. When the health check is answered by a 200 with a non-empty JSON
    object, the button marks the API available whether or not the object
    says the graph service is initialized: a missing or falsy "initialized"
    only turns the second notice into a warning. *)
Theorem status_button_available_even_if_uninitialized e r d :
  ok_body (health_answer e r) d ->
  d <> ∅ ->
  exists r',
    check_status_clicked e r = (Done tt, r') /\
    api_available (session r') = true /\
    page r' =
      page r ++
        [st_success "✅ API is available";
         if truthy (default PNone (d !! "initialized"))
         then st_success "✅ Graph service initialized"
         else st_warning "⚠️ Graph service not initialized"].
Proof.
  intros [text Hb] Hne. rewrite check_status_clicked_run, Hb. cbv zeta.
  cbn [health_value Z.eqb Pos.eqb truthy].
  rewrite bool_decide_eq_false_2 by assumption. cbn [negb].
  eexists. split; [reflexivity|]. split; [reflexivity|].
  simpl. now rewrite <- app_assoc.
Qed.

Lemma status_button_available_even_if_uninitialized_witness :
  exists r',
    check_status_clicked
      (backend_with_health health_not_initialized no_history reply_hi_there)
      (session_with earlier_exchange false) = (Done tt, r') /\
    api_available (session r') = true /\
    page r' =
      [] ++
        [st_success "✅ API is available";
         if truthy (default PNone
                      (({[ "initialized" := PBool false ]} : gmap string pyval)
                         !! "initialized"))
         then st_success "✅ Graph service initialized"
         else st_warning "⚠️ Graph service not initialized"].
Proof.
  apply (status_button_available_even_if_uninitialized
           (backend_with_health health_not_initialized no_history reply_hi_there)
           (session_with earlier_exchange false) {[ "initialized" := PBool false ]}).
  - eexists. reflexivity.
  - intros H. apply (f_equal (fun m => m !! "initialized")) in H. discriminate H.
Defined.

(** ** The first-load block *)

(** A truthy history is copied as far as its items are JSON objects; nothing
    but the log changes. *)
Lemma copy_history_frame v r res r' :
  (let* items := lift (py_iter v) in for_each items append_entry) r = (res, r') ->
  exists h, r' = with_log (messages (session r) ++ (entry_of <$> h)) r /\
            match res with Done _ => True | Halted x => exists y, x = Raised y end.
Proof.
  unfold bind. destruct (py_iter v) as [x|items]; simpl.
  - intros [= <- <-]. exists []. simpl. rewrite app_nil_r, with_log_same. eauto.
  - intros H. apply for_each_prefix in H as (h & rest & _ & -> & Hres).
    exists h. split; [reflexivity|]. destruct res; [trivial|]. destruct Hres as [-> _]. eauto.
Qed.

(** Lines 106-119 on an empty log, as a function of the health check's
    value. *)
Lemma load_on_empty_log_run e r :
  messages (session r) = [] ->
  load_on_empty_log e r =
  match health_value (health_answer e r) with
  | inl x => (Halted (Raised x), sending (health_request e) r)
  | inr v =>
      let r0 := with_flag (is_not_none v) (sending (health_request e) r) in
      if is_not_none v
      then (let* history := load_history e in
            if truthy history
            then let* items := lift (py_iter history) in for_each items append_entry
            else ret tt) r0
      else (Done tt, r0)
  end.
Proof.
  intros Hm. unfold load_on_empty_log.
  unfold bind at 1. unfold get_session at 1. rewrite Hm.
  unfold bind at 1. rewrite check_api_health_run.
  destruct (health_value (health_answer e r)) as [x|v]; [reflexivity|].
  cbn [outcome]. cbv zeta. unfold is_not_none.
  destruct v; reflexivity.
Qed.

(** However the block ends, it leaves the thread identifier alone, the flag
    is the outcome of its health check, the log is made of copied entries,
    and it issued the health check and at most the history fetch. *)
Lemma load_on_empty_log_frame e r res r' :
  messages (session r) = [] ->
  load_on_empty_log e r = (res, r') ->
  thread_id (session r') = thread_id (session r) /\
  api_available (session r') = flag_after_check e r /\
  (exists h, messages (session r') = entry_of <$> h) /\
  (sent r' = sent r ++ [health_request e] \/
   sent r' = sent r ++ [health_request e; history_request e (thread_id (session r))]) /\
  ticks r' = ticks r /\
  match res with Done _ => True | Halted x => exists y, x = Raised y end.
Proof.
  intros Hm. rewrite (load_on_empty_log_run _ _ Hm). unfold flag_after_check.
  destruct (health_value _) as [x|v].
  { intros [= <- <-]. simpl. repeat split; eauto. exists []. now rewrite Hm. }
  cbv zeta. destruct (is_not_none v) eqn:Hv.
  2:{ intros [= <- <-]. simpl. repeat split; auto. exists []. now rewrite Hm. }
  unfold bind at 1.
  destruct (load_history e _) as [[history|x] r1] eqn:Hl;
    apply load_history_frame in Hl as (Hs & Hq & Ht & Hx); simpl in Hs, Hq, Ht.
  2:{ intros [= <- <-]. rewrite Hs, Hq, Ht. simpl. rewrite <- app_assoc. simpl.
      repeat split; eauto. exists []. now rewrite Hm. }
  destruct (truthy history).
  2:{ intros [= <- <-]. rewrite Hs, Hq, Ht. simpl. rewrite <- app_assoc. simpl.
      repeat split; eauto. exists []. now rewrite Hm. }
  intros H. apply copy_history_frame in H as (h & -> & Hres).
  simpl. rewrite Hs, Hq, Ht. simpl. rewrite Hm, <- app_assoc. simpl.
  repeat split; eauto.
Qed.

(** X3. A health check answered by a 200 whose body is falsy but not null
    (the empty object, for instance) is read differently by the two blocks
    that use it: the "Check API Status" button marks the API unavailable,
    the first-load block of a run on an empty log marks it available. *)
Theorem falsy_health_body_read_two_ways e r text v :
  health_answer e r = Response 200 text (inr v) ->
  v <> PNone ->
  truthy v = false ->
  messages (session r) = [] ->
  api_available (session (check_status_clicked e r).2) = false /\
  api_available (session (load_on_empty_log e r).2) = true.
Proof.
  intros Hb Hn Ht Hm. split.
  - rewrite check_status_clicked_run, Hb. cbv zeta.
    cbn [health_value Z.eqb Pos.eqb]. now rewrite Ht.
  - destruct (load_on_empty_log e r) as [res r'] eqn:H. cbn [snd].
    apply load_on_empty_log_frame in H as (_ & Hf & _); trivial.
    rewrite Hf. unfold flag_after_check. rewrite Hb.
    cbn [health_value Z.eqb Pos.eqb]. now destruct v.
Qed.

Lemma falsy_health_body_read_two_ways_witness :
  api_available
    (session (check_status_clicked
                (backend_with_health health_empty_object no_history reply_hi_there)
                (session_with [] false)).2) = false /\
  api_available
    (session (load_on_empty_log
                (backend_with_health health_empty_object no_history reply_hi_there)
                (session_with [] false)).2) = true.
Proof.
  apply (falsy_health_body_read_two_ways
           (backend_with_health health_empty_object no_history reply_hi_there)
           (session_with [] false) "{}" (PDict ∅)).
  - reflexivity.
  - discriminate.
  - reflexivity.
  - reflexivity.
Defined.

(** X4. On an empty log, when the health check gets anything but a 200 with
    a JSON body other than null (a timeout, a refused connection, a 503, a
    body that does not parse), the first-load block marks the API
    unavailable, leaves the log empty and issues no history fetch: the
    health check is its only request. *)
Theorem first_load_api_down e r :
  messages (session r) = [] ->
  health_value (health_answer e r) = inr PNone ->
  load_on_empty_log e r
  = (Done tt, with_flag false (sending (health_request e) r)).
Proof.
  intros Hm Hv. rewrite (load_on_empty_log_run _ _ Hm). cbv zeta. now rewrite Hv.
Qed.

Lemma first_load_api_down_witness :
  load_on_empty_log late_backend (new_session late_backend before_first_run).2
  = (Done tt,
     with_flag false
       (sending (health_request late_backend)
          (new_session late_backend before_first_run).2)).
Proof.
  apply (first_load_api_down late_backend (new_session late_backend before_first_run).2).
  - reflexivity.
  - reflexivity.
Defined.

(** The first-load block on a healthy backend that holds a list of JSON
    objects as the thread's history. *)
Lemma first_load_adopts_history_aux e r v d h :
  messages (session r) = [] ->
  health_value (health_answer e r) = inr v ->
  is_not_none v = true ->
  ok_body (history_answer e (sending (health_request e) r)) d ->
  d !! "history" = Some (PList (PDict <$> h)) ->
  exists r',
    load_on_empty_log e r = (Done tt, r') /\
    messages (session r') = entry_of <$> h /\
    api_available (session r') = true /\
    thread_id (session r') = thread_id (session r) /\
    sent r' = sent r ++ [health_request e; history_request e (thread_id (session r))].
Proof.
  intros Hm Hv Hn Hb Hh. rewrite (load_on_empty_log_run _ _ Hm), Hv. cbv zeta. rewrite Hn.
  assert (Hb' : ok_body (history_answer e (with_flag true (sending (health_request e) r))) d)
    by exact Hb.
  erewrite bind_done by apply (load_history_ok _ _ _ Hb'). rewrite Hh.
  change (default (PList []) (Some (PList (PDict <$> h)))) with (PList (PDict <$> h)).
  destruct h as [|d0 h].
  - eexists. split; [reflexivity|]. simpl. rewrite Hm, <- app_assoc. auto.
  - replace (truthy (PList (PDict <$> d0 :: h))) with true by reflexivity.
    unfold bind at 1. cbn [lift py_iter]. unfold ret at 1.
    rewrite for_each_entries.
    eexists. split; [reflexivity|]. simpl. rewrite Hm, <- app_assoc. auto.
Qed.

(** X5. On an empty log, when the health check is answered by a 200 with a
    JSON body other than null and the history fetch that follows by a 200
    whose "history" is a list of JSON objects, the first-load block marks
    the API available and fills the log with these entries, in order; it
    issued the two requests and nothing else. *)
Theorem first_load_adopts_history e r v d h :
  messages (session r) = [] ->
  health_value (health_answer e r) = inr v ->
  is_not_none v = true ->
  ok_body (history_answer e (sending (health_request e) r)) d ->
  d !! "history" = Some (PList (PDict <$> h)) ->
  exists r',
    load_on_empty_log e r = (Done tt, r') /\
    messages (session r') = entry_of <$> h /\
    api_available (session r') = true /\
    thread_id (session r') = thread_id (session r) /\
    sent r' = sent r ++ [health_request e; history_request e (thread_id (session r))].
Proof. apply first_load_adopts_history_aux. Qed.

Lemma first_load_adopts_history_witness :
  exists r',
    load_on_empty_log (backend (history_of_talk 2) reply_hi_there)
      (session_with [] false) = (Done tt, r') /\
    messages (session r') = entry_of <$> talk_so_far 2 /\
    api_available (session r') = true /\
    thread_id (session r') = "thread_20240101_120000" /\
    sent r' =
      [] ++ [health_request (backend (history_of_talk 2) reply_hi_there);
             history_request (backend (history_of_talk 2) reply_hi_there)
               "thread_20240101_120000"].
Proof.
  apply (first_load_adopts_history (backend (history_of_talk 2) reply_hi_there)
           (session_with [] false) (PDict {[ "initialized" := PBool true ]})
           {[ "history" := PList (PDict <$> talk_so_far 2) ]} (talk_so_far 2)).
  - reflexivity.
  - reflexivity.
  - reflexivity.
  - eexists. reflexivity.
  - reflexivity.
Defined.

(** ** The "Load History" button, off the happy path *)

(** X6. When the history fetch is answered by a response that is not a 200,
    the "Load History" button reports nothing of the failure: the session
    stays as it is and the only notice is "No history found". *)
Theorem reload_http_error_reads_as_no_history e r code text json :
  api_available (session r) = true ->
  history_answer e r = Response code text json ->
  code <> 200 ->
  exists r',
    load_history_clicked e r = (Done tt, r') /\
    session r' = session r /\
    page r' = page r ++ [st_info "No history found"].
Proof.
  intros Ha Hb Hc.
  rewrite (load_history_clicked_nothing e r (PList [])
             (sending (history_request e (thread_id (session r))) r)); trivial.
  - eexists. repeat split.
  - unfold load_history, bind, get_session, http. simpl.
    unfold history_answer in Hb. rewrite Hb.
    now rewrite (proj2 (Z.eqb_neq code 200) Hc).
Qed.

Lemma reload_http_error_reads_as_no_history_witness :
  exists r',
    load_history_clicked (backend unavailable_503 reply_hi_there)
      (session_with earlier_exchange true) = (Done tt, r') /\
    session r' = session (session_with earlier_exchange true) /\
    page r' = [] ++ [st_info "No history found"].
Proof.
  apply (reload_http_error_reads_as_no_history (backend unavailable_503 reply_hi_there)
           (session_with earlier_exchange true) 503
           "<html>Service Unavailable</html>" (inl not_json)).
  - reflexivity.
  - reflexivity.
  - discriminate.
Defined.

(** X7. When the history fetch times out or fails otherwise, the button
    shows "Error loading history: " with the failure's description, then
    "No history found", and the session stays as it is. *)
Theorem reload_network_failure_is_reported e r msg :
  api_available (session r) = true ->
  history_answer e r = Timeout msg \/ history_answer e r = RequestException msg ->
  exists r',
    load_history_clicked e r = (Done tt, r') /\
    session r' = session r /\
    page r' =
      page r ++ [st_error ("Error loading history: " +:+ msg); st_info "No history found"].
Proof.
  intros Ha Hb.
  rewrite (load_history_clicked_nothing e r (PList [])
             (showing (st_error ("Error loading history: " +:+ msg))
                (sending (history_request e (thread_id (session r))) r))); trivial.
  - eexists. split; [reflexivity|]. split; [reflexivity|].
    simpl. now rewrite <- app_assoc.
  - unfold load_history, bind, get_session, http. simpl.
    unfold history_answer in Hb. destruct Hb as [-> | ->]; reflexivity.
Qed.

Lemma reload_network_failure_is_reported_witness :
  exists r',
    load_history_clicked (backend (RequestException "Connection refused") reply_hi_there)
      (session_with earlier_exchange true) = (Done tt, r') /\
    session r' = session (session_with earlier_exchange true) /\
    page r' =
      [] ++ [st_error "Error loading history: Connection refused";
             st_info "No history found"].
Proof.
  apply (reload_network_failure_is_reported
           (backend (RequestException "Connection refused") reply_hi_there)
           (session_with earlier_exchange true) "Connection refused").
  - reflexivity.
  - right. reflexivity.
Defined.

(** X8. When the history fetch is answered by a 200 whose JSON body is not
    an object, [load_history] raises [AttributeError] past its handler: the
    button's run ends there, before the log is touched and with no notice. *)
Theorem reload_non_object_body_raises e r text v :
  api_available (session r) = true ->
  history_answer e r = Response 200 text (inr v) ->
  not_object v ->
  load_history_clicked e r
  = (Halted (Raised AttributeError),
     sending (history_request e (thread_id (session r))) r).
Proof.
  intros Ha Hb Hv. unfold load_history_clicked.
  unfold bind at 1. unfold get_session at 1. rewrite Ha.
  assert (Hl : load_history e r
               = (Halted (Raised AttributeError),
                  sending (history_request e (thread_id (session r))) r)).
  { unfold load_history, bind, get_session, http. simpl.
    unfold history_answer in Hb. rewrite Hb. simpl.
    destruct v; try reflexivity. now destruct (Hv d). }
  now erewrite bind_halted by exact Hl.
Qed.

Lemma reload_non_object_body_raises_witness :
  load_history_clicked (backend list_body reply_hi_there)
    (session_with earlier_exchange true)
  = (Halted (Raised AttributeError),
     sending (history_request (backend list_body reply_hi_there)
                (thread_id (session (session_with earlier_exchange true))))
       (session_with earlier_exchange true)).
Proof.
  apply (reload_non_object_body_raises (backend list_body reply_hi_there)
           (session_with earlier_exchange true) "[1, 2]" (PList [PInt 1; PInt 2])).
  - reflexivity.
  - reflexivity.
  - intros d. discriminate.
Defined.

Lemma load_history_clicked_frame e r res r' :
  load_history_clicked e r = (res, r') ->
  thread_id (session r') = thread_id (session r) /\
  api_available (session r') = api_available (session r) /\
  ticks r' = ticks r /\
  (sent r' = sent r \/ sent r' = sent r ++ [history_request e (thread_id (session r))]) /\
  match res with
  | Done _ => True
  | Halted x => x = Rerun \/ exists y, x = Raised y
  end.
Proof.
  unfold load_history_clicked.
  unfold bind at 1. unfold get_session at 1.
  destruct (api_available (session r)) eqn:Ha.
  2:{ intros [= <- <-]. simpl. repeat split; auto. }
  unfold bind at 1.
  destruct (load_history e r) as [[v|x] r1] eqn:Hl;
    apply load_history_frame in Hl as (Hs & Hq & Ht & Hx).
  2:{ intros [= <- <-]. rewrite Hs, Hq, Ht. destruct Hx as [y ->]. repeat split; eauto. }
  destruct (truthy v).
  2:{ intros [= <- <-]. simpl. rewrite Hs, Hq, Ht. repeat split; auto. }
  unfold bind at 1. rewrite set_messages_run.
  unfold bind at 1.
  destruct (py_iter v) as [x|items] eqn:Hi.
  { intros [= <- <-]. simpl. rewrite Hs, Hq, Ht. repeat split; eauto. }
  cbn [lift]. unfold ret at 1. unfold bind at 1.
  destruct (for_each items append_entry (with_log [] r1)) as [res2 r2] eqn:Hf.
  apply for_each_prefix in Hf as (h & rest & _ & -> & Hres).
  destruct res2 as [[]|x].
  2:{ intros [= <- <-]. simpl. rewrite Hs, Hq, Ht. destruct Hres as [-> _].
      repeat split; eauto. }
  unfold bind, lift, ret, raise, show, st_rerun.
  destruct v; simpl in Hi; try discriminate;
    intros [= <- <-]; simpl; rewrite Hs, Hq, Ht; repeat split; eauto.
Qed.

(** X9. However the "Load History" button ends, it leaves the thread
    identifier and the availability flag as they were, and it issues at most
    one request: the history fetch for the session's thread. *)
Theorem reload_button_frame e r :
  thread_id (session (load_history_clicked e r).2) = thread_id (session r) /\
  api_available (session (load_history_clicked e r).2) = api_available (session r) /\
  (sent (load_history_clicked e r).2 = sent r \/
   sent (load_history_clicked e r).2
   = sent r ++ [history_request e (thread_id (session r))]).
Proof.
  destruct (load_history_clicked e r) as [res r'] eqn:H. cbn [snd].
  apply load_history_clicked_frame in H as (Ht & Ha & _ & Hq & _). auto.
Qed.

(** X10. After the button has replaced the log, the count in its notice
    "Loaded n messages" is the number of entries the log now holds. *)
Theorem reload_notice_counts_log e r d h :
  api_available (session r) = true ->
  ok_body (history_answer e r) d ->
  d !! "history" = Some (PList (PDict <$> h)) ->
  h <> [] ->
  exists r',
    load_history_clicked e r = (Halted Rerun, r') /\
    page r' =
      page r ++
        [st_success ("Loaded " +:+ pretty (length (messages (session r'))) +:+ " messages")].
Proof.
  intros Ha Hb Hh Hne. rewrite (load_history_clicked_loaded _ _ d h) by assumption.
  eexists. split; [reflexivity|]. simpl. now rewrite length_fmap.
Qed.

Lemma reload_notice_counts_log_witness :
  exists r',
    load_history_clicked (backend (history_of_talk 4) reply_hi_there)
      (session_with earlier_exchange true) = (Halted Rerun, r') /\
    page r' =
      [] ++
        [st_success ("Loaded " +:+ pretty (length (messages (session r'))) +:+ " messages")].
Proof.
  apply (reload_notice_counts_log (backend (history_of_talk 4) reply_hi_there)
           (session_with earlier_exchange true)
           {[ "history" := PList (PDict <$> talk_so_far 4) ]} (talk_so_far 4)).
  - reflexivity.
  - eexists. reflexivity.
  - reflexivity.
  - discriminate.
Defined.

(** ** The chat input, off the happy path *)

Lemma for_each_stops h v rest r :
  not_object v ->
  for_each ((PDict <$> h) ++ v :: rest) append_entry r
  = (Halted (Raised AttributeError),
     with_log (messages (session r) ++ (entry_of <$> h)) r).
Proof.
  intros Hv. revert r. induction h as [|d h IH]; intros r; simpl.
  - erewrite bind_halted by (apply append_entry_other, Hv).
    now rewrite app_nil_r, with_log_same.
  - erewrite bind_done by apply append_entry_dict.
    rewrite IH. simpl. now rewrite <- app_assoc.
Qed.

(** X11. When a successful result's conversation history has an item that
    is not a JSON object, the replacement stops there with
    [AttributeError]: the previous log is already gone, the log holds the
    entries that came before the item, and the script is not rerun. *)
Theorem interrupted_replacement_loses_log e r prompt d h v rest :
  prompt <> "" ->
  api_available (session r) = true ->
  ok_body (chat_answer e r prompt) d ->
  d !! "error" = None ->
  d !! "conversationHistory" = Some (PList ((PDict <$> h) ++ v :: rest)) ->
  not_object v ->
  exists r',
    chat_input_submitted e prompt r = (Halted (Raised AttributeError), r') /\
    messages (session r') = entry_of <$> h.
Proof.
  intros Hp Ha [text Hb] He Hh Hv.
  rewrite chat_input_submitted_run by assumption.
  rewrite Hb. cbn [chat_result Z.eqb Pos.eqb].
  unfold apply_result, bind, lift, ret. simpl. rewrite He, Hh. simpl.
  replace (match (PDict <$> h) ++ v :: rest with [] => false | _ :: _ => true end)
    with true by (now destruct h).
  fold (with_log [] (sending (chat_request e (thread_id (session r)) prompt) r)).
  rewrite for_each_stops by assumption.
  eexists. split; reflexivity.
Qed.

Lemma interrupted_replacement_loses_log_witness :
  exists r',
    chat_input_submitted (backend no_history reply_broken_history) "hello"
      (session_with earlier_exchange true) = (Halted (Raised AttributeError), r') /\
    messages (session r') = entry_of <$> [entry_dict ("user", "hello")].
Proof.
  apply (interrupted_replacement_loses_log (backend no_history reply_broken_history)
           (session_with earlier_exchange true) "hello" broken_history
           [entry_dict ("user", "hello")] (PStr "oops") []).
  - discriminate.
  - reflexivity.
  - eexists. reflexivity.
  - reflexivity.
  - reflexivity.
  - intros d. discriminate.
Defined.

(** What [apply_result] leaves alone, however it ends. *)
Lemma apply_result_frame e prompt result r res r' :
  apply_result e prompt result r = (res, r') ->
  thread_id (session r') = thread_id (session r) /\
  api_available (session r') = api_available (session r) /\
  sent r' = sent r /\
  (not_object result -> r' = r /\ exists y, res = Halted (Raised y)).
Proof.
  destruct result as [| | | |s|l|d];
    try (intros [= <- <-]; repeat split; eauto).
  - unfold apply_result, bind, lift, ret; simpl.
    destruct (is_substring "error" s); [intros [= <- <-]; repeat split; eauto|].
    destruct (is_substring "conversationHistory" s);
      intros [= <- <-]; repeat split; eauto.
  - unfold apply_result, bind, lift, ret; simpl.
    destruct (existsb _ l); [intros [= <- <-]; repeat split; eauto|].
    destruct (existsb _ l); intros [= <- <-]; repeat split; eauto.
  - intros H.
    enough (thread_id (session r') = thread_id (session r) /\
            api_available (session r') = api_available (session r) /\
            sent r' = sent r) as (Ht & Hf & Hq).
    { split; [exact Ht|]. split; [exact Hf|]. split; [exact Hq|].
      intros Hn. now destruct (Hn d). }
    revert H.
    destruct (d !! "error") as [err|] eqn:He.
    { rewrite (apply_result_error _ _ _ _ _ He). intros [= <- <-]. now repeat split. }
    destruct (d !! "conversationHistory") as [v|] eqn:Hh.
    2:{ rewrite apply_result_fallback by (rewrite ?Hh; done). intros [= <- <-].
        now repeat split. }
    destruct (truthy v) eqn:Ht.
    2:{ rewrite apply_result_fallback by (rewrite ?Hh; done). intros [= <- <-].
        now repeat split. }
    unfold apply_result, bind, lift, ret; simpl. rewrite He, Hh. simpl. rewrite Ht.
    fold (with_log [] r).
    destruct (py_iter v) as [x|items] eqn:Hi.
    { intros [= <- <-]. now repeat split. }
    intros Hf. apply for_each_prefix in Hf as (h & rest & _ & -> & _).
    now repeat split.
Qed.

(** X12. When the chat request is answered by a 200 whose JSON body is not
    an object (a list, a string, a number, null), the chat input raises
    while reading the result: nothing is appended to the log, nothing is
    shown, and the script is not rerun. *)
Theorem non_object_result_raises e r prompt text v :
  prompt <> "" ->
  api_available (session r) = true ->
  chat_answer e r prompt = Response 200 text (inr v) ->
  not_object v ->
  exists y,
    chat_input_submitted e prompt r
    = (Halted (Raised y), sending (chat_request e (thread_id (session r)) prompt) r).
Proof.
  intros Hp Ha Hb Hv.
  rewrite chat_input_submitted_run by assumption.
  rewrite Hb. cbn [chat_result Z.eqb Pos.eqb].
  destruct (apply_result e prompt v _) as [res r'] eqn:H.
  apply apply_result_frame in H as (_ & _ & _ & H).
  destruct (H Hv) as (-> & y & ->). now exists y.
Qed.

Lemma non_object_result_raises_witness :
  exists y,
    chat_input_submitted (backend no_history list_body) "hello"
      (session_with earlier_exchange true)
    = (Halted (Raised y),
       sending (chat_request (backend no_history list_body)
                  (thread_id (session (session_with earlier_exchange true))) "hello")
         (session_with earlier_exchange true)).
Proof.
  apply (non_object_result_raises (backend no_history list_body)
           (session_with earlier_exchange true) "hello" "[1, 2]" (PList [PInt 1; PInt 2])).
  - discriminate.
  - reflexivity.
  - reflexivity.
  - intros d. discriminate.
Defined.

(** X13. A 200 whose body is not JSON is handled as a connection failure:
    the decoding error is shown, and the log gains the user message and
    "Error: Error connecting to API: " followed by the decoding error. *)
Theorem unparsable_200_is_connection_error e r prompt text msg :
  prompt <> "" ->
  api_available (session r) = true ->
  chat_answer e r prompt = Response 200 text (inl msg) ->
  exists r',
    chat_input_submitted e prompt r = (Halted Rerun, r') /\
    messages (session r') =
      exchange e prompt (PStr ("Error: Error connecting to API: " +:+ msg)) r /\
    page r' = page r ++ [st_error ("Error: " +:+ msg)].
Proof.
  intros Hp Ha Hb.
  rewrite chat_input_submitted_run by assumption.
  rewrite Hb. cbn [chat_result Z.eqb Pos.eqb].
  rewrite (apply_result_error _ _ _ (PStr msg)) by reflexivity.
  eexists. repeat split.
Qed.

Lemma unparsable_200_is_connection_error_witness :
  exists r',
    chat_input_submitted (backend no_history html_200) "hello" (session_with [] true)
    = (Halted Rerun, r') /\
    messages (session r') =
      exchange (backend no_history html_200) "hello"
        (PStr ("Error: Error connecting to API: " +:+ not_json)) (session_with [] true) /\
    page r' = [] ++ [st_error ("Error: " +:+ not_json)].
Proof.
  apply (unparsable_200_is_connection_error (backend no_history html_200)
           (session_with [] true) "hello" "<html>It works!</html>" not_json).
  - discriminate.
  - reflexivity.
  - reflexivity.
Defined.

(** X14. On a response that is not a 200, the notice shown carries the
    status code ("Error: API error: 500") while the message logged carries
    the body. *)
Theorem http_error_notice_carries_status e r prompt code text json :
  prompt <> "" ->
  api_available (session r) = true ->
  chat_answer e r prompt = Response code text json ->
  code <> 200 ->
  exists r',
    chat_input_submitted e prompt r = (Halted Rerun, r') /\
    page r' = page r ++ [st_error ("Error: API error: " +:+ pretty code)] /\
    messages (session r') = exchange e prompt (PStr ("Error: " +:+ text)) r.
Proof.
  intros Hp Ha Hb Hc.
  rewrite chat_input_submitted_run by assumption.
  rewrite Hb. cbn [chat_result]. rewrite (proj2 (Z.eqb_neq code 200) Hc).
  rewrite (apply_result_error _ _ _ (PStr ("API error: " +:+ pretty code))) by reflexivity.
  eexists. repeat split.
Qed.

Lemma http_error_notice_carries_status_witness :
  exists r',
    chat_input_submitted (backend no_history server_exploded) "hello"
      (session_with [] true) = (Halted Rerun, r') /\
    page r' = [] ++ [st_error ("Error: API error: " +:+ pretty 500)] /\
    messages (session r') =
      exchange (backend no_history server_exploded) "hello"
        (PStr ("Error: " +:+ "server exploded")) (session_with [] true).
Proof.
  apply (http_error_notice_carries_status (backend no_history server_exploded)
           (session_with [] true) "hello" 500 "server exploded" (inl not_json)).
  - discriminate.
  - reflexivity.
  - reflexivity.
  - discriminate.
Defined.

Lemma chat_input_submitted_frame e prompt r res r' :
  chat_input_submitted e prompt r = (res, r') ->
  thread_id (session r') = thread_id (session r) /\
  api_available (session r') = api_available (session r) /\
  (sent r' = sent r \/
   sent r' = sent r ++ [chat_request e (thread_id (session r)) prompt]).
Proof.
  destruct (String.eqb_spec prompt "") as [->|Hp].
  { intros [= <- <-]. auto. }
  destruct (api_available (session r)) eqn:Ha.
  2:{ rewrite chat_input_submitted_unavailable by assumption.
      intros [= <- <-]. simpl. auto. }
  rewrite chat_input_submitted_run by assumption.
  destruct (chat_result _) as [x|result].
  { intros [= <- <-]. simpl. auto. }
  destruct (apply_result _ _ _ _) as [[[]|x] r1] eqn:H;
    apply apply_result_frame in H as (Ht & Hf & Hq & _);
    intros [= <- <-]; rewrite Ht, Hf, Hq; simpl; auto.
Qed.

(** X15. However a submission to the chat input ends (ignored because
    empty, rejected, completed, or interrupted by an exception), the thread
    identifier and the availability flag are as before, and at most one
    request was issued: the chat request carrying the prompt and the
    session's thread identifier. *)
Theorem chat_input_frame e prompt r :
  thread_id (session (chat_input_submitted e prompt r).2) = thread_id (session r) /\
  api_available (session (chat_input_submitted e prompt r).2)
  = api_available (session r) /\
  (sent (chat_input_submitted e prompt r).2 = sent r \/
   sent (chat_input_submitted e prompt r).2
   = sent r ++
       [POST (API_BASE_URL e +:+ "/api/chat")
             (PDict {[ "message" := PStr prompt;
                       "threadId" := PStr (thread_id (session r)) ]})
             60]).
Proof.
  destruct (chat_input_submitted e prompt r) as [res r'] eqn:H. cbn [snd].
  now apply chat_input_submitted_frame in H.
Qed.

(** ** Whole runs, block by block *)

(** Splits a conjunction into its conjuncts, and nothing else. *)
Ltac conjuncts := repeat match goal with |- _ /\ _ => split end.

Lemma bind_assoc {A B C} (c : script A) (k1 : A -> script B) (k2 : B -> script C) r :
  bind (bind c k1) k2 r = bind c (fun a => bind (k1 a) k2) r.
Proof. unfold bind. destruct (c r) as [[a|h] r1]; reflexivity. Qed.

Lemma script_run_split e ev r :
  script_run e ev r = (first_block e ev;; before_handlers e;; handlers e ev) r.
Proof.
  unfold script_run, before_handlers, handlers.
  change (match ev with CheckStatusClicked => check_status_clicked e | _ => ret tt end)
    with (first_block e ev).
  unfold bind.
  destruct (first_block e ev r) as [[[]|x] r1]; [|reflexivity].
  destruct (load_on_empty_log e r1) as [[[]|x] r2]; [|reflexivity].
  destruct (show_api_status e r2) as [[[]|x] r3]; [|reflexivity].
  destruct (show_messages e r3) as [[[]|x] r4]; reflexivity.
Qed.

(** The button above the log: one health check when it is clicked, nothing
    otherwise; log and thread identifier untouched. *)
Lemma first_block_frame e ev r res r' :
  first_block e ev r = (res, r') ->
  messages (session r') = messages (session r) /\
  thread_id (session r') = thread_id (session r) /\
  (sent r' = sent r \/ (ev = CheckStatusClicked /\ sent r' = sent r ++ [health_request e])) /\
  match res with Done _ => True | Halted x => exists y, x = Raised y end.
Proof.
  destruct ev; try (intros [= <- <-]; now auto).
  unfold first_block. rewrite check_status_clicked_run. cbv zeta.
  destruct (health_value _) as [x|v].
  { intros [= <- <-]. simpl. repeat split; eauto. }
  destruct (truthy _).
  2:{ intros [= <- <-]. simpl. auto 6. }
  destruct v; intros [= <- <-]; simpl; repeat split; eauto.
Qed.

(** What comes before the handlers: on a non-empty log the session and the
    requests stay as they are; on an empty one the health check and at most
    the history fetch are issued; the thread identifier never changes. *)
Lemma before_handlers_frame e r res r' :
  before_handlers e r = (res, r') ->
  thread_id (session r') = thread_id (session r) /\
  (messages (session r) <> [] -> session r' = session r /\ sent r' = sent r) /\
  (messages (session r) = [] ->
   api_available (session r') = flag_after_check e r /\
   exists qs, sent r' = sent r ++ health_request e :: qs /\
              (qs = [] \/ qs = [history_request e (thread_id (session r))])) /\
  (sent r' = sent r \/ sent r' = sent r ++ [health_request e] \/
   sent r' = sent r ++ [health_request e; history_request e (thread_id (session r))]) /\
  match res with Done _ => True | Halted x => exists y, x = Raised y end.
Proof.
  unfold before_handlers. unfold bind at 1.
  destruct (load_on_empty_log e r) as [res1 r1] eqn:Hl.
  assert (H1 : thread_id (session r1) = thread_id (session r) /\
               (messages (session r) <> [] -> r1 = r /\ res1 = Done tt) /\
               (messages (session r) = [] ->
                api_available (session r1) = flag_after_check e r /\
                (sent r1 = sent r ++ [health_request e] \/
                 sent r1 = sent r ++ [health_request e;
                                      history_request e (thread_id (session r))])) /\
               match res1 with Done _ => True | Halted x => exists y, x = Raised y end).
  { destruct (messages (session r)) as [|m l] eqn:Hm.
    - apply load_on_empty_log_frame in Hl as (Ht & Hf & _ & Hq & _ & Hx); trivial.
      repeat split; trivial; congruence.
    - rewrite load_on_empty_log_skipped in Hl by congruence.
      injection Hl as <- <-. repeat split; trivial; congruence. }
  destruct H1 as (Ht1 & Hne1 & He1 & Hx1).
  assert (Hfin : forall r2, session r2 = session r1 -> sent r2 = sent r1 ->
            thread_id (session r2) = thread_id (session r) /\
            (messages (session r) <> [] -> session r2 = session r /\ sent r2 = sent r) /\
            (messages (session r) = [] ->
             api_available (session r2) = flag_after_check e r /\
             exists qs, sent r2 = sent r ++ health_request e :: qs /\
                        (qs = [] \/ qs = [history_request e (thread_id (session r))])) /\
            (sent r2 = sent r \/ sent r2 = sent r ++ [health_request e] \/
             sent r2 = sent r ++ [health_request e;
                                  history_request e (thread_id (session r))])).
  { intros r2 Hs Hq. rewrite Hs, Hq. split; [exact Ht1|]. split; [|split].
    - intros Hne. destruct (Hne1 Hne) as [-> _]. auto.
    - intros Hm. destruct (He1 Hm) as [Hf [-> | ->]]; (split; [exact Hf|]); eauto.
    - destruct (messages (session r)) as [|m l] eqn:Hm.
      + destruct (He1 eq_refl) as [_ [-> | ->]]; auto.
      + destruct (Hne1 ltac:(discriminate)) as [-> _]. auto. }
  destruct res1 as [[]|x].
  2:{ intros [= <- <-]. destruct (Hfin r1 eq_refl eq_refl) as (? & ? & ? & ?).
      conjuncts; trivial. }
  unfold bind at 1.
  destruct (show_api_status_run e r1) as (r2 & -> & Hs2 & Hq2 & _).
  intros Hm. apply show_messages_run in Hm as (Hs3 & Hq3 & _ & Hx3).
  destruct (Hfin r' ltac:(congruence) ltac:(congruence)) as (? & ? & ? & ?).
  conjuncts; trivial.
Qed.

(** The handlers: at most one request, the chat request of a submission or
    the history fetch of the "Load History" button; the thread identifier
    changes only under the "Clear Chat" button. *)
Lemma handlers_frame e ev r res r' :
  handlers e ev r = (res, r') ->
  (ev <> ClearClicked -> thread_id (session r') = thread_id (session r)) /\
  (sent r' = sent r \/
   (exists prompt, ev = Submitted prompt /\
                   sent r' = sent r ++ [chat_request e (thread_id (session r)) prompt]) \/
   (ev = LoadHistoryClicked /\
    sent r' = sent r ++ [history_request e (thread_id (session r))])).
Proof.
  unfold handlers. destruct ev as [| |prompt| |]; unfold bind, ret.
  - intros [= <- <-]. auto.
  - intros [= <- <-]. auto.
  - destruct (chat_input_submitted e prompt r) as [res1 r1] eqn:H.
    apply chat_input_submitted_frame in H as (Ht & _ & Hq).
    intros H. assert (r' = r1) as -> by (destruct res1 as [[]|x]; congruence).
    split; [auto|]. destruct Hq as [-> | ->]; eauto.
  - simpl. intros [= <- <-]. simpl. split; [congruence|auto].
  - destruct (load_history_clicked e r) as [res1 r1] eqn:H.
    apply load_history_clicked_frame in H as (Ht & _ & _ & Hq & _).
    intros H. assert (r' = r1) as -> by (destruct res1 as [[]|x]; congruence).
    split; [auto|]. destruct Hq as [-> | ->]; eauto.
Qed.

(** X16. Every run of the script leaves the thread identifier as it is,
    unless the "Clear Chat" button was clicked: status checks, submissions,
    reloads and plain reruns never change the thread, however they end. *)
Theorem thread_id_changes_only_on_clear e ev r :
  ev <> ClearClicked ->
  thread_id (session (script_run e ev r).2) = thread_id (session r).
Proof.
  intros Hev. rewrite script_run_split. unfold bind.
  destruct (first_block e ev r) as [res1 r1] eqn:H1.
  apply first_block_frame in H1 as (_ & Ht1 & _).
  destruct res1 as [[]|x]; [|exact Ht1].
  destruct (before_handlers e r1) as [res2 r2] eqn:H2.
  apply before_handlers_frame in H2 as (Ht2 & _).
  destruct res2 as [[]|x]; [|simpl; congruence].
  destruct (handlers e ev r2) as [res3 r3] eqn:H3.
  apply handlers_frame in H3 as (Ht3 & _). simpl. rewrite (Ht3 Hev). congruence.
Qed.

Lemma thread_id_changes_only_on_clear_witness :
  thread_id (session (script_run talking_backend (Submitted "hello")
                        (session_with [] false)).2)
  = thread_id (session (session_with [] false)).
Proof.
  apply (thread_id_changes_only_on_clear talking_backend (Submitted "hello")
           (session_with [] false)).
  discriminate.
Defined.

Lemma script_run_requests e ev r res r' :
  script_run e ev r = (res, r') ->
  exists qs,
    sent r' = sent r ++ qs /\
    (length qs <= 3)%nat /\
    Forall (run_request e (thread_id (session r)) ev) qs.
Proof.
  set (P := run_request e (thread_id (session r)) ev).
  assert (Hh : P (health_request e)) by (left; reflexivity).
  assert (Hy : P (history_request e (thread_id (session r)))) by (right; left; reflexivity).
  rewrite script_run_split. unfold bind at 1.
  destruct (first_block e ev r) as [res1 r1] eqn:H1.
  apply first_block_frame in H1 as (_ & Ht1 & Hq1 & _).
  assert (Ha : exists a, sent r1 = sent r ++ a /\ Forall P a /\
                         (length a = 0%nat \/ (ev = CheckStatusClicked /\ length a = 1%nat))).
  { destruct Hq1 as [Hq1 | [Hev Hq1]].
    - exists []. rewrite app_nil_r. auto.
    - exists [health_request e]. auto. }
  clear Hq1. destruct Ha as (a & Hqa & HPa & Hla).
  destruct res1 as [[]|x].
  2:{ intros [= <- <-]. exists a. split; [exact Hqa|]. split; [|exact HPa].
      destruct Hla as [-> | [_ ->]]; lia. }
  unfold bind at 1.
  destruct (before_handlers e r1) as [res2 r2] eqn:H2.
  apply before_handlers_frame in H2 as (Ht2 & _ & _ & Hq2 & _).
  rewrite Ht1 in Hq2.
  assert (Hb : exists b, sent r2 = sent r1 ++ b /\ Forall P b /\ (length b <= 2)%nat).
  { destruct Hq2 as [Hq2 | [Hq2 | Hq2]].
    - exists []. rewrite app_nil_r. auto.
    - exists [health_request e]. auto.
    - exists [health_request e; history_request e (thread_id (session r))]. auto. }
  clear Hq2. destruct Hb as (b & Hqb & HPb & Hlb).
  assert (Hfin : forall c, Forall P c ->
            (length c = 0%nat \/ (ev <> CheckStatusClicked /\ length c = 1%nat)) ->
            exists qs, sent r2 ++ c = sent r ++ qs /\ (length qs <= 3)%nat /\ Forall P qs).
  { intros c HPc Hlc. exists (a ++ b ++ c).
    split; [rewrite Hqb, Hqa, <- !app_assoc; reflexivity|].
    split; [|now repeat apply Forall_app_2].
    rewrite !length_app.
    destruct Hla as [Hla | [Hev Hla]]; destruct Hlc as [Hlc | [Hev' Hlc]];
      try congruence; lia. }
  destruct res2 as [[]|x].
  2:{ intros [= <- <-]. rewrite <- (app_nil_r (sent r2)). apply Hfin; auto. }
  intros H3. apply handlers_frame in H3 as (_ & H3). rewrite Ht2, Ht1 in H3.
  destruct H3 as [-> | [(prompt & Hev & ->) | [Hev ->]]].
  - rewrite <- (app_nil_r (sent r2)). apply Hfin; auto.
  - apply Hfin.
    + constructor; [|constructor]. right. right. now exists prompt.
    + right. split; [congruence|reflexivity].
  - apply Hfin.
    + constructor; [exact Hy|constructor].
    + right. split; [congruence|reflexivity].
Qed.

(** X17. A run of the script issues at most three requests, each of them
    the health check, the history fetch for the thread the run started on,
    or (after a submission) the chat request carrying the prompt and that
    thread; all go to the configured base URL. *)
Theorem run_requests e ev r :
  exists qs,
    sent (script_run e ev r).2 = sent r ++ qs /\
    (length qs <= 3)%nat /\
    Forall (run_request e (thread_id (session r)) ev) qs.
Proof.
  destruct (script_run e ev r) as [res r'] eqn:H. cbn [snd].
  now apply script_run_requests in H.
Qed.

(** ** The chat display *)

Lemma show_message_bubble e m r res r' :
  show_message e m r = (res, r') ->
  bubbles (page r') = bubbles (page r) ++ [bubble m].
Proof.
  unfold show_message, bubble, bubbles, bind, show, raise, ret.
  repeat match goal with
         | |- context [match ?x with _ => _ end] => destruct x
         end;
    intros [= <- <-]; simpl; rewrite ?List.filter_app; simpl;
    rewrite ?app_nil_r; reflexivity.
Qed.

Lemma show_message_unrenderable e m r :
  unrenderable m ->
  exists r', show_message e m r = (Halted (Raised TypeError), r').
Proof.
  intros (Hr & s & Hs & Ht). unfold show_message, bind, show, raise. rewrite Ht.
  assert (Htr : truthy (PStr s) = true).
  { simpl. destruct s; [congruence|reflexivity]. }
  rewrite Htr.
  repeat match goal with
         | |- context [match ?x with _ => _ end] => destruct x
         end; try congruence; eexists; reflexivity.
Qed.

Lemma for_each_show_raises e l r m :
  m ∈ l -> unrenderable m ->
  exists y r', for_each l (show_message e) r = (Halted (Raised y), r').
Proof.
  intros Hin Hm. revert r. induction l as [|m0 l IH]; intros r.
  - now apply elem_of_nil in Hin.
  - simpl. unfold bind.
    destruct (show_message e m0 r) as [[[]|x] r1] eqn:H0.
    + apply elem_of_cons in Hin as [->|Hin].
      * destruct (show_message_unrenderable e m0 r Hm) as [r2 H2]. congruence.
      * apply IH, Hin.
    + apply show_message_run in H0 as (_ & _ & _ & y & ->). eauto.
Qed.

(** X18. Chat bubbles follow the log: a display that ends normally has
    added one bubble per logged message, in the log's order, the user's for
    the role "user" and the assistant's for every other role. *)
Theorem display_follows_log e r r' :
  show_messages e r = (Done tt, r') ->
  bubbles (page r') = bubbles (page r) ++ (bubble <$> messages (session r)).
Proof.
  unfold show_messages. unfold bind at 1. unfold get_session.
  generalize (messages (session r)). intros l. revert r.
  induction l as [|m l IH]; intros r; simpl.
  - intros [= <-]. now rewrite app_nil_r.
  - unfold bind. destruct (show_message e m r) as [[[]|x] r1] eqn:Hm; [|discriminate].
    intros H. apply IH in H. apply show_message_bubble in Hm.
    rewrite H, Hm, <- app_assoc. reflexivity.
Qed.

Lemma display_follows_log_witness :
  bubbles (page (show_messages talking_backend (session_with earlier_exchange true)).2)
  = bubbles (page (session_with earlier_exchange true)) ++ (bubble <$> earlier_exchange).
Proof.
  apply (display_follows_log talking_backend (session_with earlier_exchange true)).
  reflexivity.
Defined.

(** On a log that holds such a message, what comes before the handlers ends
    in the display's exception, and has changed nothing but the page. *)
Lemma display_unrenderable e r m :
  m ∈ messages (session r) ->
  unrenderable m ->
  exists y r0 r',
    show_api_status e r = (Done tt, r0) /\
    show_messages e r0 = (Halted (Raised y), r') /\
    before_handlers e r = (Halted (Raised y), r') /\
    session r' = session r /\ sent r' = sent r /\ ticks r' = ticks r.
Proof.
  intros Hin Hm.
  assert (Hne : messages (session r) <> []).
  { intros H0. rewrite H0 in Hin. now apply elem_of_nil in Hin. }
  destruct (show_api_status_run e r) as (r0 & H0 & Hs0 & Hq0 & Ht0).
  destruct (for_each_show_raises e (messages (session r0)) r0 m) as (y & r' & H1);
    [congruence|assumption|].
  assert (H1' : show_messages e r0 = (Halted (Raised y), r')).
  { unfold show_messages. unfold bind at 1. unfold get_session. exact H1. }
  pose proof H1' as H2. apply show_messages_run in H2 as (Hs1 & Hq1 & Ht1 & _).
  exists y, r0, r'. conjuncts; trivial; try congruence.
  unfold before_handlers.
  erewrite bind_done by (apply load_on_empty_log_skipped, Hne).
  erewrite bind_done by exact H0. exact H1'.
Qed.

(** X19. A logged message that is shown as the assistant's and carries a
    non-empty string as its timestamp (an ISO date copied from a backend
    history, for instance) makes every later run of the script end in an
    exception, with the log as it was.  Unless the run was triggered by the
    "Check API Status" button, whose block comes first, the exception is the
    chat display's: the run ends where the display raised, no request was
    issued and the session state is untouched, so the chat input and the
    "Clear Chat" and "Load History" buttons are never reached. *)
Theorem unrenderable_message_blocks_every_run e ev r m :
  m ∈ messages (session r) ->
  unrenderable m ->
  (raised (script_run e ev r).1 /\
   messages (session (script_run e ev r).2) = messages (session r)) /\
  (ev <> CheckStatusClicked ->
   exists y r0 r',
     show_api_status e r = (Done tt, r0) /\
     show_messages e r0 = (Halted (Raised y), r') /\
     script_run e ev r = (Halted (Raised y), r') /\
     session r' = session r /\ sent r' = sent r /\ ticks r' = ticks r).
Proof.
  intros Hin Hm. split.
  - destruct (script_run e ev r) as [res r'] eqn:H. cbn [fst snd].
    revert H. rewrite script_run_split. unfold bind at 1.
    destruct (first_block e ev r) as [res1 r1] eqn:H1.
    apply first_block_frame in H1 as (Hl1 & _ & _ & Hx1).
    destruct res1 as [[]|x].
    2:{ destruct Hx1 as [y ->]. intros [= <- <-]. split; [now exists y|exact Hl1]. }
    destruct (display_unrenderable e r1 m) as (y & r0 & r2 & _ & _ & Hb & Hs & _);
      [congruence|assumption|].
    erewrite bind_halted by exact Hb. intros [= <- <-].
    split; [now exists y|congruence].
  - intros Hev.
    destruct (display_unrenderable e r m Hin Hm) as (y & r0 & r' & H0 & H1 & Hb & Hf).
    exists y, r0, r'. conjuncts; trivial; try apply Hf.
    rewrite script_run_split.
    assert (Hfb : first_block e ev r = (Done tt, r)) by (now destruct ev).
    erewrite bind_done by exact Hfb. now erewrite bind_halted by exact Hb.
Qed.

Lemma unrenderable_message_blocks_every_run_witness :
  let e := backend no_history reply_hi_there in
  let r := session_with [entry_of iso_stamped] true in
  (raised (script_run e ClearClicked r).1 /\
   messages (session (script_run e ClearClicked r).2) = messages (session r)) /\
  (ClearClicked <> CheckStatusClicked ->
   exists y r0 r',
     show_api_status e r = (Done tt, r0) /\
     show_messages e r0 = (Halted (Raised y), r') /\
     script_run e ClearClicked r = (Halted (Raised y), r') /\
     session r' = session r /\ sent r' = sent r /\ ticks r' = ticks r).
Proof.
  apply (unrenderable_message_blocks_every_run (backend no_history reply_hi_there)
           ClearClicked (session_with [entry_of iso_stamped] true) (entry_of iso_stamped)).
  - constructor.
  - split; [discriminate|]. exists "2024-01-01T12:00:00Z". split; [discriminate|reflexivity].
Defined.


(** ** The rerun after "Clear Chat", and new sessions *)

(** What comes before the handlers never reads the clock. *)
Lemma before_handlers_ticks e r res r' :
  before_handlers e r = (res, r') -> ticks r' = ticks r.
Proof.
  unfold before_handlers. unfold bind at 1.
  destruct (load_on_empty_log e r) as [res1 r1] eqn:Hl.
  assert (H1 : ticks r1 = ticks r).
  { destruct (messages (session r)) as [|m l] eqn:Hm.
    - now apply load_on_empty_log_frame in Hl as (_ & _ & _ & _ & Ht & _).
    - rewrite load_on_empty_log_skipped in Hl by congruence. now injection Hl as _ <-. }
  destruct res1 as [[]|x]; [|intros [= _ <-]; exact H1].
  unfold bind at 1.
  destruct (show_api_status_run e r1) as (r2 & -> & _ & _ & Ht2).
  intros Hm. apply show_messages_run in Hm as (_ & _ & Ht3 & _). congruence.
Qed.

(** A run triggered by anything but the "Check API Status" button is what
    comes before the handlers, then, unless that raised, the handlers. *)
Lemma script_run_inv e ev r res r' :
  ev <> CheckStatusClicked ->
  script_run e ev r = (res, r') ->
  (exists y, before_handlers e r = (Halted (Raised y), r') /\ res = Halted (Raised y)) \/
  (exists r0, before_handlers e r = (Done tt, r0) /\ handlers e ev r0 = (res, r')).
Proof.
  intros Hev. rewrite script_run_split.
  assert (Hfb : first_block e ev r = (Done tt, r)) by (now destruct ev).
  erewrite bind_done by exact Hfb. unfold bind at 1.
  destruct (before_handlers e r) as [[[]|x] r0] eqn:H2.
  - intros H. right. eauto.
  - pose proof H2 as H2'. apply before_handlers_frame in H2' as (_ & _ & _ & _ & y & ->).
    intros [= <- <-]. left. eauto.
Qed.

Lemma handlers_submitted e prompt r res r' :
  handlers e (Submitted prompt) r = (res, r') ->
  chat_input_submitted e prompt r = (res, r').
Proof.
  unfold handlers, bind, ret.
  destruct (chat_input_submitted e prompt r) as [[[]|x] r1]; now intros [= <- <-].
Qed.


(** A run that a click on "Clear Chat" ends in [st.rerun()] got through
    what comes before the handlers; the button then emptied the log and set
    the thread identifier from the clock, and wrote nothing else. *)
Lemma clear_run_inv e r r1 :
  script_run e ClearClicked r = (Halted Rerun, r1) ->
  exists r0,
    before_handlers e r = (Done tt, r0) /\
    ticks r0 = ticks r /\
    r1 = {| session := {| messages := [];
                          thread_id := "thread_" +:+ strftime (now e (ticks r0));
                          api_available := api_available (session r0) |};
            sent := sent r0; page := page r0; ticks := S (ticks r0) |}.
Proof.
  intros H. apply script_run_inv in H; [|discriminate].
  destruct H as [(y & _ & Hy)|(r0 & H0 & H)]; [discriminate Hy|].
  exists r0. split; [exact H0|]. split; [now apply before_handlers_ticks in H0|].
  revert H. unfold handlers, bind, ret. simpl. now intros [= <-].
Qed.

(** A run that a click on "Clear Chat" ends in [st.rerun()] leaves an empty
    log. *)
Lemma clear_run_empties_log e r r1 :
  script_run e ClearClicked r = (Halted Rerun, r1) ->
  messages (session r1) = [].
Proof. intros H. now apply clear_run_inv in H as (r0 & _ & _ & ->). Qed.

(** A run in which no widget fires, on an empty log: the first-load block
    issues its health check, and at most the history fetch, and sets the
    flag; the thread identifier stays. *)
Lemma rerun_on_empty_log e r res r' :
  messages (session r) = [] ->
  script_run e NoEvent r = (res, r') ->
  api_available (session r') = flag_after_check e r /\
  thread_id (session r') = thread_id (session r) /\
  exists qs, sent r' = sent r ++ health_request e :: qs /\
             (qs = [] \/ qs = [history_request e (thread_id (session r))]).
Proof.
  intros Hm H.
  assert (Hb : before_handlers e r = (res, r')).
  { apply script_run_inv in H; [|discriminate].
    destruct H as [(y & H & ->)|(r0 & H0 & H)]; [exact H|].
    unfold handlers, bind, ret in H. now injection H as <- <-. }
  apply before_handlers_frame in Hb as (Ht & _ & He & _).
  destruct (He Hm) as (Hf & qs & Hq & Hqs). eauto.
Qed.

(** X20. The rerun that "Clear Chat" asks for finds the log empty, so its
    first-load block runs: the interaction issues a health check right after
    the clear and leaves the availability flag at that check's outcome,
    whatever the flag was (when the check lets an exception of
    [response.json()] through, the flag is not written). *)
Theorem clear_rechecks_health e r r1 :
  script_run e ClearClicked r = (Halted Rerun, r1) ->
  match health_value (health_answer e r1) with
  | inr v => api_available (session (interact e ClearClicked r).2) = is_not_none v
  | inl _ => api_available (session (interact e ClearClicked r).2) = api_available (session r1)
  end /\
  exists qs, sent (interact e ClearClicked r).2 = sent r1 ++ health_request e :: qs.
Proof.
  intros H. pose proof (clear_run_empties_log _ _ _ H) as Hm.
  unfold interact. rewrite H.
  destruct (script_run e NoEvent r1) as [res r'] eqn:Hr. cbn [snd].
  apply rerun_on_empty_log in Hr as (Hf & _ & qs & Hq & _); [|exact Hm].
  unfold flag_after_check in Hf. split; [|eauto].
  destruct (health_value _); exact Hf.
Qed.

Lemma clear_rechecks_health_witness :
  let e := backend no_history reply_hi_there in
  let r := session_with earlier_exchange false in
  api_available (session (interact e ClearClicked r).2) = true /\
  exists qs,
    sent (interact e ClearClicked r).2
    = sent (script_run e ClearClicked r).2 ++ health_request e :: qs.
Proof.
  apply (clear_rechecks_health (backend no_history reply_hi_there)
           (session_with earlier_exchange false)
           (script_run (backend no_history reply_hi_there) ClearClicked
              (session_with earlier_exchange false)).2).
  vm_compute. reflexivity.
Defined.

(** X21. Two browser sessions get the same thread identifier exactly when
    their first runs read the same local date and time of day, to the
    second: sessions started within the same second share a thread on the
    backend, and so do sessions started an hour apart across the end of
    daylight saving time, when the local clock shows the same reading
    twice. *)
Theorem sessions_share_thread_iff_same_local_time e1 r1 e2 r2 :
  valid_instant (now e1 (ticks r1)) ->
  valid_instant (now e2 (ticks r2)) ->
  thread_id (session (new_session e1 r1).2) = thread_id (session (new_session e2 r2).2)
  <-> calendar (now e1 (ticks r1)) = calendar (now e2 (ticks r2)).
Proof.
  intros Hv1 Hv2. simpl. split.
  - intros H. apply (inj (String.append "thread_")) in H. now apply strftime_inj.
  - unfold calendar. intros [= Hy Hm Hd Hh Hi Hs]. unfold strftime. congruence.
Qed.

Lemma sessions_share_thread_iff_same_local_time_witness :
  thread_id (session (new_session autumn_backend before_first_run).2)
  = thread_id (session (new_session autumn_backend (session_with [] false)).2)
  <-> calendar (now autumn_backend (ticks before_first_run))
      = calendar (now autumn_backend (ticks (session_with [] false))).
Proof.
  apply (sessions_share_thread_iff_same_local_time autumn_backend
           before_first_run autumn_backend (session_with [] false)).
  - repeat split; vm_compute; easy.
  - repeat split; vm_compute; easy.
Defined.


(** ** Submissions, from the run's start to the rerun *)

(** A message the display gets through is shown without an exception. *)
Lemma show_message_renderable e m r :
  renderable e m = true ->
  exists r', show_message e m r = (Done tt, r') /\
             session r' = session r /\ sent r' = sent r /\ ticks r' = ticks r.
Proof.
  unfold renderable, show_message, bind, show, raise, ret.
  repeat match goal with
         | |- context [match ?x with _ => _ end] => destruct x
         end;
    intros H; try discriminate H; eexists; repeat split.
Qed.

Lemma show_messages_renderable e r :
  Forall (fun m => renderable e m = true) (messages (session r)) ->
  exists r', show_messages e r = (Done tt, r') /\
             session r' = session r /\ sent r' = sent r /\ ticks r' = ticks r.
Proof.
  unfold show_messages. unfold bind at 1. unfold get_session.
  generalize (messages (session r)). intros l Hl. revert r.
  induction Hl as [|m l Hm Hl IH]; intros r; simpl.
  - eexists. repeat split.
  - destruct (show_message_renderable e m r Hm) as (r1 & H0 & Hs & Hq & Ht).
    erewrite bind_done by exact H0.
    destruct (IH r1) as (r' & H & Hs' & Hq' & Ht').
    exists r'. repeat split; congruence.
Qed.

(** X22. A submission on an empty log goes through the first-load block
    before it is sent: when the backend is healthy and holds a history for
    the thread, all of whose entries the chat display gets through (user
    entries, entries without a truthy timestamp, entries with a number that
    [fromtimestamp] accepts as their timestamp), the run loads that history,
    then sends the message on top of it; with a single-response result the
    log ends as the history followed by the user message and the reply. *)
Theorem submission_on_empty_log_loads_history_first e r prompt v dh h text dc reply :
  prompt <> "" ->
  messages (session r) = [] ->
  health_value (health_answer e r) = inr v ->
  is_not_none v = true ->
  ok_body (history_answer e (sending (health_request e) r)) dh ->
  dh !! "history" = Some (PList (PDict <$> h)) ->
  Forall (fun d => renderable e (entry_of d) = true) h ->
  network e (sent r ++ [health_request e; history_request e (thread_id (session r))])
    (chat_request e (thread_id (session r)) prompt)
  = Response 200 text (inr (PDict dc)) ->
  dc !! "error" = None ->
  dc !! "conversationHistory" = None ->
  dc !! "response" = Some (PStr reply) ->
  exists r' t1 t2,
    script_run e (Submitted prompt) r = (Halted Rerun, r') /\
    messages (session r') =
      (entry_of <$> h) ++
        [ {| role := PStr "user"; content := PStr prompt; timestamp := PInt t1 |};
          {| role := PStr "assistant"; content := PStr reply; timestamp := PInt t2 |} ].
Proof.
  intros Hp Hm Hv Hn Hb Hh Hts Hc He Hch Hr.
  destruct (first_load_adopts_history_aux e r v dh h Hm Hv Hn Hb Hh)
    as (r1 & H1 & Hl1 & Hf1 & Ht1 & Hq1).
  rewrite script_run_split. unfold bind at 1. cbn [first_block]. unfold ret at 1.
  unfold bind at 1. unfold before_handlers.
  erewrite bind_done by exact H1.
  destruct (show_api_status_run e r1) as (r2 & H2 & Hs2 & Hq2 & Hk2).
  erewrite bind_done by exact H2.
  destruct (show_messages_renderable e r2) as (r3 & H3 & Hs3 & Hq3 & Hk3).
  { rewrite Hs2, Hl1. clear -Hts. induction Hts; constructor; auto. }
  rewrite H3. unfold handlers. unfold bind at 1.
  assert (Ha3 : api_available (session r3) = true) by congruence.
  assert (Hb3 : ok_body (chat_answer e r3 prompt) dc).
  { exists text. unfold chat_answer. rewrite <- Hc. f_equal; congruence. }
  rewrite chat_input_submitted_run by assumption.
  destruct Hb3 as [text' Hb3]. rewrite Hb3. cbn [chat_result Z.eqb Pos.eqb].
  rewrite apply_result_fallback by (rewrite ?Hch; trivial). rewrite Hr.
  eexists. exists (epoch_ms (now e (ticks r3))), (epoch_ms (now e (S (ticks r3)))).
  split; [reflexivity|]. simpl. unfold exchange. simpl.
  rewrite Hs3, Hs2, Hl1. reflexivity.
Qed.

Lemma submission_on_empty_log_loads_history_first_witness :
  exists r' t1 t2,
    script_run (backend history_stamped reply_hi_there) (Submitted "again")
      (session_with [] false) = (Halted Rerun, r') /\
    messages (session r') =
      (entry_of <$> stamped_talk) ++
        [ {| role := PStr "user"; content := PStr "again"; timestamp := PInt t1 |};
          {| role := PStr "assistant"; content := PStr "hi there"; timestamp := PInt t2 |} ].
Proof.
  apply (submission_on_empty_log_loads_history_first
           (backend history_stamped reply_hi_there) (session_with [] false) "again"
           (PDict {[ "initialized" := PBool true ]})
           {[ "history" := PList (PDict <$> stamped_talk) ]} stamped_talk
           ("{" +:+ quoted "response" +:+ ": " +:+ quoted "hi there" +:+ "}")
           {[ "response" := PStr "hi there" ]} "hi there").
  - discriminate.
  - reflexivity.
  - reflexivity.
  - reflexivity.
  - eexists. reflexivity.
  - reflexivity.
  - repeat constructor.
  - reflexivity.
  - reflexivity.
  - reflexivity.
  - reflexivity.
Defined.


(** A submission that completes leaves a log that is not empty. *)
Lemma completed_submission_log_not_empty e prompt r r' :
  chat_input_submitted e prompt r = (Halted Rerun, r') ->
  messages (session r') <> [].
Proof.
  intros H. apply chat_input_submitted_inv in H as (_ & _ & result & _ & H).
  apply apply_result_inv in H as [(d & h & _ & _ & _ & Hne & ->)|[reply ->]].
  - destruct h; [congruence|discriminate].
  - unfold exchange. intros H. now apply app_eq_nil in H as [_ H].
Qed.

(** X23. After a submission that completed, the rerun it asks for fetches
    nothing: the log is not empty, so the first-load block is skipped, and
    the interaction ends with the session state and the requests exactly as
    the chat input left them. *)
Theorem completed_submission_needs_no_reload e prompt r r1 :
  script_run e (Submitted prompt) r = (Halted Rerun, r1) ->
  messages (session r1) <> [] /\
  session (interact e (Submitted prompt) r).2 = session r1 /\
  sent (interact e (Submitted prompt) r).2 = sent r1.
Proof.
  intros H.
  assert (Hne : messages (session r1) <> []).
  { revert H. rewrite script_run_split. unfold bind at 1. cbn [first_block].
    unfold ret at 1. unfold bind at 1.
    destruct (before_handlers e r) as [[[]|x] r2] eqn:H2.
    - unfold handlers. unfold bind at 1.
      destruct (chat_input_submitted e prompt r2) as [[[]|x] r3] eqn:H3.
      + unfold bind, ret. discriminate.
      + intros [= -> <-]. now apply completed_submission_log_not_empty in H3.
    - apply before_handlers_frame in H2 as (_ & _ & _ & _ & y & ->). discriminate. }
  split; [exact Hne|]. unfold interact. rewrite H.
  destruct (script_run e NoEvent r1) as [res r'] eqn:Hr.
  apply rerun_keeps_session in Hr as (Hs & Hq & _); auto.
Qed.

Lemma completed_submission_needs_no_reload_witness :
  messages (session (script_run talking_backend (Submitted "hello")
                       (session_with [] true)).2) <> [] /\
  session (interact talking_backend (Submitted "hello") (session_with [] true)).2
  = session (script_run talking_backend (Submitted "hello") (session_with [] true)).2 /\
  sent (interact talking_backend (Submitted "hello") (session_with [] true)).2
  = sent (script_run talking_backend (Submitted "hello") (session_with [] true)).2.
Proof.
  apply (completed_submission_needs_no_reload talking_backend "hello"
           (session_with [] true)).
  vm_compute. reflexivity.
Defined.

(** * The synchronisation rules on whole runs *)









(** ** Sequences of sends *)

(** A run that a submission ends in [st.rerun()] got through what comes
    before the handlers, and the chat input completed. *)
Lemma script_run_submitted_rerun e prompt r r2 :
  script_run e (Submitted prompt) r = (Halted Rerun, r2) ->
  exists r0,
    before_handlers e r = (Done tt, r0) /\
    chat_input_submitted e prompt r0 = (Halted Rerun, r2).
Proof.
  intros H. apply script_run_inv in H; [|discriminate].
  destruct H as [(y & _ & Hy)|(r0 & H0 & H)]; [discriminate Hy|].
  exists r0. split; [exact H0|]. now apply handlers_submitted.
Qed.

Lemma submit_all_snoc e prompts prompt r :
  submit_all e (prompts ++ [prompt]) r
  = (interact e (Submitted prompt) (submit_all e prompts r)).2.
Proof. unfold submit_all. now rewrite fold_left_app. Qed.

(** C2 (as the code has it). Whatever the log was before and whatever the
    earlier submissions of a sequence did, when the last one completes (its
    run reaches the chat input, which sends and reruns the script) and the
    backend answers it with a 200 whose JSON object has no error key and
    carries a non-empty list of JSON objects as its conversation history,
    the log after the sequence is that history, entry for entry: role,
    content and timestamp, a missing role read as "assistant", a missing
    content as the empty string, a missing timestamp as [None]. *)
Theorem last_full_history_replaces_log e prompts prompt r r2 past q d h :
  script_run e (Submitted prompt) (submit_all e prompts r) = (Halted Rerun, r2) ->
  sent r2 = past ++ [q] ->
  ok_body (network e past q) d ->
  d !! "error" = None ->
  d !! "conversationHistory" = Some (PList (PDict <$> h)) ->
  h <> [] ->
  q = chat_request e (thread_id (session r2)) prompt /\
  messages (session (submit_all e (prompts ++ [prompt]) r)) = entry_of <$> h /\
  Forall2 (fun m d =>
             role m = default (PStr "assistant") (d !! "role") /\
             content m = default (PStr "") (d !! "content") /\
             timestamp m = default PNone (d !! "timestamp"))
          (messages (session (submit_all e (prompts ++ [prompt]) r))) h.
Proof.
  intros H Hs Hb He Hh Hne. rewrite submit_all_snoc.
  set (r1 := submit_all e prompts r) in *.
  destruct (script_run_submitted_rerun _ _ _ _ H) as (r0 & H0 & Hc).
  pose proof Hc as Hfr.
  apply chat_input_submitted_frame in Hfr as (Ht & _ & _).
  apply chat_input_submitted_inv in Hc as (Hp & Ha & result & Hres & Happ).
  pose proof Happ as Hq. apply apply_result_frame in Hq as (_ & _ & Hq & _).
  simpl in Hq. rewrite Hs in Hq. apply app_inj_tail in Hq as [-> ->].
  destruct Hb as [text Hb]. unfold chat_answer in Hres. rewrite Hb in Hres.
  injection Hres as <-.
  rewrite (apply_result_history _ _ _ h) in Happ by assumption.
  injection Happ as <-.
  assert (Hm : messages (session (interact e (Submitted prompt) r1).2) = entry_of <$> h).
  { destruct (interact_keeps_handler_state e (Submitted prompt) r1 _ H) as [-> _].
    - simpl. destruct h; [congruence|discriminate].
    - reflexivity. }
  split; [now rewrite Ht|]. split; [exact Hm|].
  rewrite Hm. clear. induction h; constructor; auto.
Qed.

Lemma last_full_history_replaces_log_witness :
  let e := talking_backend in
  let r := session_with earlier_exchange true in
  chat_request e "thread_20240101_120000" "again"
  = chat_request e
      (thread_id (session (script_run e (Submitted "again") (submit_all e ["hello"] r)).2))
      "again" /\
  messages (session (submit_all e (["hello"] ++ ["again"]) r)) = entry_of <$> talk_so_far 4 /\
  Forall2 (fun m d =>
             role m = default (PStr "assistant") (d !! "role") /\
             content m = default (PStr "") (d !! "content") /\
             timestamp m = default PNone (d !! "timestamp"))
          (messages (session (submit_all e (["hello"] ++ ["again"]) r))) (talk_so_far 4).
Proof.
  intros e r.
  apply (last_full_history_replaces_log e ["hello"] "again" r
           (script_run e (Submitted "again") (submit_all e ["hello"] r)).2
           [chat_request e "thread_20240101_120000" "hello"]
           (chat_request e "thread_20240101_120000" "again")
           {[ "conversationHistory" := PList (PDict <$> talk_so_far 4) ]}
           (talk_so_far 4)).
  - vm_compute. reflexivity.
  - vm_compute. reflexivity.
  - eexists. reflexivity.
  - reflexivity.
  - reflexivity.
  - discriminate.
Defined.

(** C2, counterexample. A send that completes, and that the backend answers
    with a 200 whose JSON object has no error key and carries the empty list
    as its conversation history, does not leave the log equal to that
    history: the earlier entries stay, and the user's message and "No
    response received" are appended. *)
Lemma empty_history_is_not_adopted :
  let e := backend no_history reply_empty_history in
  let r := session_with earlier_exchange true in
  exists r2,
    script_run e (Submitted "hello") (submit_all e [] r) = (Halted Rerun, r2) /\
    sent r2 = [] ++ [chat_request e "thread_20240101_120000" "hello"] /\
    ok_body (network e [] (chat_request e "thread_20240101_120000" "hello")) empty_history /\
    empty_history !! "error" = None /\
    empty_history !! "conversationHistory" = Some (PList (PDict <$> [])) /\
    messages (session (submit_all e ([] ++ ["hello"]) r)) =
      earlier_exchange ++
        [user_message "hello" 1704110400001;
         assistant_message (PStr "No response received") 1704110400002] /\
    messages (session (submit_all e ([] ++ ["hello"]) r)) <> entry_of <$> [].
Proof.
  cbv zeta. eexists. split; [vm_compute; reflexivity|].
  split; [reflexivity|]. split; [eexists; reflexivity|].
  split; [reflexivity|]. split; [reflexivity|].
  split; [vm_compute; reflexivity|].
  vm_compute. discriminate.
Qed.

(** ** The "Clear Chat" button and the rerun it asks for *)






